(** * lingvo/core/step.py: steps, stacks of steps and graphs of steps

    A shallow embedding of [lingvo.core.step] and a verification of the
    properties its specification states about it.

    - Python values are a tagged tree ([Nested]): [None], a tensor, a Python
      list, or a [py_utils.NestedMap] (a dict with string keys).
    - A Python exception is the [Err] case of [result]; the code is written in
      the error monad, in the order in which Python evaluates it.
    - The tensor engine (TensorFlow) is a type class, [TensorEngine]: the code
      only concatenates and adds tensors. *)

From Stdlib Require Import Ascii DecimalString.
From stdpp Require Import base numbers option list strings gmap.

#[local] Set Warnings "-register-all".
#[local] Open Scope Z_scope.

(** ** Python exceptions and the error monad *)

Inductive PyError : Type :=
  | AssertionError
  | AttributeError
  | IndexError
  | KeyError
  | TypeError
  | ValueError
  | UnboundLocalError
  | NotImplementedError
  | ParseError    (* builder_layers.GraphSignature, on a malformed string *)
  | LookupError   (* builder_layers.GraphTensors.GetTensor *)
  | StoreError.   (* builder_layers.GraphTensors.StoreTensor, on a taken name *)

Inductive result (A : Type) : Type :=
  | Ok (a : A)
  | Err (e : PyError).
Arguments Ok {A} a.
Arguments Err {A} e.

#[export] Instance result_ret : MRet result := λ A a, Ok a.
#[export] Instance result_bind : MBind result := λ A B f m,
  match m with
  | Ok a => f a
  | Err e => Err e
  end.
#[export] Instance result_fmap : FMap result := λ A B f m,
  match m with
  | Ok a => Ok (f a)
  | Err e => Err e
  end.

(** [assert c] *)
Definition assert (c : bool) : result unit :=
  if c then Ok tt else Err AssertionError.

(** [o] when it is there, the exception [e] otherwise. *)
Definition or_raise {A} (e : PyError) (o : option A) : result A :=
  match o with
  | Some a => Ok a
  | None => Err e
  end.

Definition is_Ok {A} (r : result A) : Prop := ∃ a, r = Ok a.
Definition is_Err {A} (r : result A) : Prop := ∃ e, r = Err e.

(** The loops of the module: [for x in l: st = body(st, x)], stopping at the
    first exception. *)
Fixpoint for_each {S X} (body : S → X → result S) (l : list X) (st : S)
  : result S :=
  match l with
  | [] => Ok st
  | x :: l' => st' ← body st x; for_each body l' st'
  end.

(** [[f(x) for x in l]], stopping at the first exception. *)
Fixpoint map_result {X Y} (f : X → result Y) (l : list X) : result (list Y) :=
  match l with
  | [] => Ok []
  | x :: l' => y ← f x; ys ← map_result f l'; Ok (y :: ys)
  end.

(** ** Python values *)

Inductive Nested (A : Type) : Type :=
  | NNone                                  (* None *)
  | NLeaf (a : A)                          (* a leaf: a tensor, a path *)
  | NList (l : list (Nested A))            (* a Python list *)
  | NMap (m : gmap string (Nested A)).     (* py_utils.NestedMap *)
Arguments NNone {A}.
Arguments NLeaf {A} a.
Arguments NList {A} l.
Arguments NMap {A} m.

(** The structure of a value: the value with its leaves erased. *)
Fixpoint shape {A} (v : Nested A) : Nested unit :=
  match v with
  | NNone => NNone
  | NLeaf _ => NLeaf tt
  | NList l => NList (shape <$> l)
  | NMap m => NMap (shape <$> m)
  end.

(** Python's [l[k]] for an integer [k]: a negative [k] counts from the end. *)
Definition py_index {A} (l : list A) (k : Z) : result A :=
  let n := Z.of_nat (length l) in
  if bool_decide (0 ≤ k < n) then or_raise IndexError (l !! Z.to_nat k)
  else if bool_decide (- n ≤ k < 0) then or_raise IndexError (l !! Z.to_nat (n + k))
  else Err IndexError.

Module py_utils.

(** [py_utils.NestedMap()] *)
Definition NestedMap {A} : Nested A := NMap ∅.

(** [v.name]: attribute access on a NestedMap. *)
Definition getattr {A} (v : Nested A) (name : string) : result (Nested A) :=
  match v with
  | NMap m => or_raise AttributeError (m !! name)
  | _ => Err AttributeError
  end.

(** [v[name]] for a string [name]. *)
Definition getitem {A} (v : Nested A) (name : string) : result (Nested A) :=
  match v with
  | NMap m => or_raise KeyError (m !! name)
  | _ => Err TypeError
  end.

(** [v[i]] for a list [v] and a loop index [i] (never negative). *)
Definition getindex {A} (v : Nested A) (i : nat) : result (Nested A) :=
  match v with
  | NList l => py_index l (Z.of_nat i)
  | _ => Err TypeError
  end.

(** [name in v] *)
Definition contains {A} (v : Nested A) (name : string) : bool :=
  match v with
  | NMap m => bool_decide (is_Some (m !! name))
  | _ => false
  end.

(** [list(v)] *)
Definition to_list {A} (v : Nested A) : result (list (Nested A)) :=
  match v with
  | NList l => Ok l
  | _ => Err TypeError
  end.

(** [NestedMap.Transform(fn)]: [fn] applied to every leaf, the structure
    kept. The leaves of a map are visited in the map's own order. *)
Fixpoint Transform {A B} (fn : A → result (Nested B)) (v : Nested A)
  : result (Nested B) :=
  match v with
  | NNone => Ok NNone
  | NLeaf a => fn a
  | NList l => NList <$> map_result (Transform fn) l
  | NMap m =>
      NMap <$> map_fold
        (λ k x acc, m' ← acc; y ← Transform fn x; Ok (<[k := y]> m'))
        (Ok ∅) m
  end.

End py_utils.

(** ** The tensor engine *)

(** What the module asks of TensorFlow: [tf.concat(values, axis)] and the
    [+] of two tensors. Both can raise (shapes that do not fit). *)
Class TensorEngine : Type := {
  Tensor : Type;
  tf_concat : list Tensor → Z → result Tensor;
  tf_add : Tensor → Tensor → result Tensor;
}.

Abbreviation Value := (Nested Tensor).

(** The tensor that a value is; anything else is no operand of the engine. *)
Definition as_tensor `{TensorEngine} (v : Value) : result Tensor :=
  match v with
  | NLeaf t => Ok t
  | _ => Err TypeError
  end.

(** ** builder_layers: signatures and the tensor registry *)

Module builder_layers.

(** A reference path: [identifier ("." identifier | "[" int "]")*]. *)
Inductive Segment : Type :=
  | Field (name : string)
  | Index (i : nat).

Record Path : Type := mkPath {
  head : string;
  segments : list Segment;
}.

(** Modelled from the spec: the parsed form of a signature string, which
    the class builder_layers.GraphSignature (not in this module) builds: an
    ordered list of input groups, each a structure of reference paths, and
    an ordered list of output names. *)
Record Signature : Type := mkSignature {
  inputs : list (Nested Path);
  outputs : list string;
}.

Definition is_ident_char (c : ascii) : bool :=
  let n := nat_of_ascii c in
  ((97 <=? n) && (n <=? 122) || (65 <=? n) && (n <=? 90)
   || (48 <=? n) && (n <=? 57) || (n =? 95))%nat.

Definition is_digit (c : ascii) : bool :=
  let n := nat_of_ascii c in ((48 <=? n) && (n <=? 57))%nat.

(** [cs.split(sep)], outside of square brackets when [top] is set. *)
Fixpoint split_at (top : bool) (sep : ascii) (depth : nat) (cs : list ascii)
  : list (list ascii) :=
  match cs with
  | [] => [[]]
  | c :: cs' =>
      let depth' :=
        if bool_decide (c = "["%char) then S depth
        else if bool_decide (c = "]"%char) then pred depth
        else depth in
      if bool_decide (c = sep) && (negb top || (depth =? 0)%nat) then
        [] :: split_at top sep depth' cs'
      else
        match split_at top sep depth' cs' with
        | [] => [[c]]
        | w :: ws => (c :: w) :: ws
        end
  end.

(** The text before and after the first ["->"]. *)
Fixpoint split_arrow (cs : list ascii) : list ascii * option (list ascii) :=
  match cs with
  | [] => ([], None)
  | c :: cs' =>
      match cs' with
      | d :: rest =>
          if bool_decide (c = "-"%char) && bool_decide (d = ">"%char)
          then ([], Some rest)
          else let '(l, r) := split_arrow cs' in (c :: l, r)
      | [] => ([c], None)
      end
  end.

Definition parse_ident (cs : list ascii) : result string :=
  match cs with
  | [] => Err ParseError
  | _ => if forallb is_ident_char cs
         then Ok (String.string_of_list_ascii cs) else Err ParseError
  end.

Definition parse_nat (cs : list ascii) : result nat :=
  match cs with
  | [] => Err ParseError
  | _ => if forallb is_digit cs
         then Ok (fold_left (λ n c, 10 * n + (nat_of_ascii c - 48))%nat cs 0%nat)
         else Err ParseError
  end.

(** ["3]"] is the index 3. *)
Definition parse_index (cs : list ascii) : result Segment :=
  match reverse cs with
  | c :: ds => if bool_decide (c = "]"%char)
               then Index <$> parse_nat (reverse ds) else Err ParseError
  | [] => Err ParseError
  end.

(** [identifier ("[" int "]")*]: the name and its indices. *)
Definition parse_component (cs : list ascii) : result (string * list Segment) :=
  match split_at false "["%char 0 cs with
  | name :: idxs =>
      n ← parse_ident name; segs ← map_result parse_index idxs; Ok (n, segs)
  | [] => Err ParseError
  end.

Definition parse_path (cs : list ascii) : result Path :=
  match split_at false "."%char 0 cs with
  | first :: rest =>
      '(h, segs) ← parse_component first;
      more ← map_result
               (λ c, '(n, s) ← parse_component c; Ok (Field n :: s)) rest;
      Ok (mkPath h (segs ++ concat more))
  | [] => Err ParseError
  end.

(** An input group: a bare path, or [name=[path1,path2,...]]. *)
Definition parse_group (cs : list ascii) : result (Nested Path) :=
  match split_at false "="%char 0 cs with
  | [path] => NLeaf <$> parse_path path
  | [name; paths] =>
      n ← parse_ident name;
      match paths, reverse paths with
      | o :: _ :: _, c :: rin =>
          if bool_decide (o = "["%char) && bool_decide (c = "]"%char) then
            ps ← map_result parse_path
                   (split_at true ","%char 0 (tail (reverse rin)));
            Ok (NMap {[ n := NList (NLeaf <$> ps) ]})
          else Err ParseError
      | _, _ => Err ParseError
      end
  | _ => Err ParseError
  end.

Definition parse_groups (cs : list ascii) : result (list (Nested Path)) :=
  match cs with
  | [] => Ok []
  | _ => map_result parse_group (split_at true ","%char 0 cs)
  end.

Definition parse_inputs (cs : list ascii) : result (list (Nested Path)) :=
  match cs, reverse cs with
  | o :: _ :: _, c :: rin =>
      if bool_decide (o = "("%char) then
        if bool_decide (c = ")"%char) then parse_groups (tail (reverse rin))
        else Err ParseError
      else parse_groups cs
  | _, _ => parse_groups cs
  end.

(** Modelled from the spec: the constructor of builder_layers.GraphSignature
    (not in this module), after the grammar of the specification:
    ["(" input-group ")" "->" output1 "," output2 ...], an input group
    being a bare reference path or [name=[path1,path2,...]]. Several groups
    are separated by commas; the part from ["->"] on is left out by a
    signature with no output (an external signature); a malformed string is
    a ParseError. *)
Definition GraphSignature (s : string) : result Signature :=
  let '(ins, outs) := split_arrow (String.list_ascii_of_string s) in
  i ← parse_inputs ins;
  o ← match outs with
      | None => Ok []
      | Some cs => map_result parse_ident (split_at false ","%char 0 cs)
      end;
  Ok (mkSignature i o).

Section registry.
Context `{TensorEngine}.

(** Modelled from the spec: the class builder_layers.GraphTensors (not in
    this module), a mapping from names to values. *)
Definition GraphTensors : gmap string Value := ∅.

(** Modelled from the spec: GraphTensors.StoreTensor registers a value
    under a name, and fails if the name already exists. *)
Definition StoreTensor (gt : gmap string Value) (name : string) (v : Value)
  : result (gmap string Value) :=
  match gt !! name with
  | Some _ => Err StoreError
  | None => Ok (<[name := v]> gt)
  end.

(** One segment of a path, resolved in a value. *)
Definition resolve (v : Value) (seg : Segment) : result Value :=
  match seg, v with
  | Field name, NMap m => or_raise LookupError (m !! name)
  | Index i, NList l => or_raise LookupError (l !! i)
  | _, _ => Err LookupError
  end.

(** Modelled from the spec: GraphTensors.GetTensor resolves a dotted and
    indexed reference path against the stored values, and fails with a
    LookupError if a segment is unresolved. *)
Definition GetTensor (gt : gmap string Value) (p : Path) : result Value :=
  v ← or_raise LookupError (gt !! head p);
  for_each resolve (segments p) v.

End registry.

End builder_layers.

(** ** base_layer: layers, and the children of a layer *)

Module base_layer.
Section with_engine.
Context `{TensorEngine}.

(** A layer, as this module uses one: [layer.FProp(theta, inputs)] or
    [layer.FProp(theta, inputs, padding=padding)]. *)
Record BaseLayer : Type := mkBaseLayer {
  FProp : Value → Value → option Value → result Value;
}.
End with_engine.
End base_layer.

(** ** class Step *)

Module Step.
Section with_engine.
Context `{TensorEngine}.

(** The three methods of a step; a subclass gives its own. *)
Record t : Type := mk {
  PrepareExternalInputs : Value → Value → result Value;
  ZeroState : Value → Value → Z → result Value;
  FProp : Value → Value → Value → Value → Value → result (Value * Value);
}.

(** The class itself: every method raises NotImplementedError. *)
Definition base : t := {|
  PrepareExternalInputs := λ theta external_inputs,
    Err NotImplementedError;
  ZeroState := λ theta external_inputs batch_size,
    Err NotImplementedError;
  FProp := λ theta external_inputs step_inputs padding state0,
    Err NotImplementedError;
|}.
End with_engine.
End Step.

(** A step keeps the structure of the state [state0]: whenever its [FProp]
    returns on [state0], the state it returns has the shape of [state0]. *)
Definition preserves_state_shape `{TensorEngine} (s : Step.t) (state0 : Value)
  : Prop :=
  ∀ theta external_inputs step_inputs padding output state1,
    Step.FProp s theta external_inputs step_inputs padding state0
    = Ok (output, state1) →
    shape state1 = shape state0.

(** ** class StatelessLayerStep *)

Module StatelessLayerStep.
Section with_engine.
Context `{TensorEngine}.

(** The instance: its child [layer]. *)
Record t : Type := mk {
  layer : base_layer.BaseLayer;
}.

Definition PrepareExternalInputs (self : t) (theta external_inputs : Value)
  : result Value :=
  Ok py_utils.NestedMap.

Definition ZeroState (self : t) (theta external_inputs : Value)
    (batch_size : Z) : result Value :=
  Ok py_utils.NestedMap.

Definition FProp (self : t)
    (theta external_inputs step_inputs padding state0 : Value)
  : result (Value * Value) :=
  let args :=
    match padding with
    | NNone => None
    | _ => Some padding
    end in
  theta_layer ← py_utils.getattr theta "layer";
  inputs ← py_utils.getattr step_inputs "inputs";
  output ← base_layer.FProp (layer self) theta_layer inputs args;
  Ok (output, py_utils.NestedMap).

(** The instance seen as a [Step]. *)
Definition step (self : t) : Step.t := {|
  Step.PrepareExternalInputs := PrepareExternalInputs self;
  Step.ZeroState := ZeroState self;
  Step.FProp := FProp self;
|}.
End with_engine.
End StatelessLayerStep.

(** ** class StackStep *)

Module StackStep.
Section with_engine.
Context `{TensorEngine}.

(** The instance: its children [sub] and the two parameters of the
    residual connections. *)
Record t : Type := mk {
  sub : list Step.t;
  residual_start : Z;
  residual_stride : Z;
}.

(** [self.sub[i]] and the [i]-th entry of a list-valued field. *)
Definition sub_at (self : t) (i : nat) : result Step.t :=
  or_raise IndexError (sub self !! i).

Definition field_at (v : Value) (name : string) (i : nat) : result Value :=
  l ← py_utils.getattr v name; py_utils.getindex l i.

Definition PrepareExternalInputs (self : t) (theta external_inputs : Value)
  : result Value :=
  packed_sub ← for_each
    (λ packed_sub i,
       child ← sub_at self i;
       theta_i ← field_at theta "sub" i;
       p ← Step.PrepareExternalInputs child theta_i external_inputs;
       Ok (packed_sub ++ [p]))
    (seq 0 (length (sub self))) [];
  Ok (NMap {[ "sub" := NList packed_sub ]}).

Definition ZeroState (self : t) (theta external_inputs : Value)
    (batch_size : Z) : result Value :=
  state_sub ← for_each
    (λ state_sub i,
       child ← sub_at self i;
       theta_i ← field_at theta "sub" i;
       s ← Step.ZeroState child theta_i external_inputs batch_size;
       Ok (state_sub ++ [s]))
    (seq 0 (length (sub self))) [];
  Ok (NMap {[ "sub" := NList state_sub ]}).

(** The variables of [FProp] that its loop updates; [output] is unbound
    until the first child has run. *)
Record Locals : Type := mkLocals {
  state1_sub : list Value;
  inputs : list Value;
  residual_inputs : list Value;
  output : option Value;
}.

(** [output += residual_inputs[k]], under its assertion. *)
Definition add_residual (self : t) (i : nat) (residual_inputs : list Value)
    (output : Value) : result Value :=
  let k := Z.of_nat i + 1 - residual_stride self in
  _ ← assert (bool_decide (k < Z.of_nat (length residual_inputs)));
  r ← py_index residual_inputs k;
  a ← as_tensor output;
  b ← as_tensor r;
  NLeaf <$> tf_add a b.

(** The body of the loop of [FProp], for the child [i]. *)
Definition FProp_body (self : t)
    (theta external_inputs padding state0 : Value)
    (additional : list Value) (st : Locals) (i : nat) : result Locals :=
  let sub_inputs : Value := NMap {[ "inputs" := NList (inputs st ++ additional) ]} in
  child ← sub_at self i;
  theta_i ← field_at theta "sub" i;
  external_i ← field_at external_inputs "sub" i;
  state0_i ← field_at state0 "sub" i;
  '(sub_output, state1_i) ←
    Step.FProp child theta_i external_i sub_inputs padding state0_i;
  let state1_sub := state1_sub st ++ [state1_i] in
  output ← py_utils.getattr sub_output "output";
  output ←
    (if bool_decide (residual_start self ≤ Z.of_nat i)
        && bool_decide (0 ≤ residual_start self)
     then add_residual self i (residual_inputs st) output
     else Ok output);
  Ok {| state1_sub := state1_sub;
        inputs := [output];
        residual_inputs := residual_inputs st ++ [output];
        output := Some output |}.

(** The variables of [FProp] when its loop starts. *)
Definition FProp_init (step_inputs : Value) : result (Locals * list Value) :=
  inputs ← py_utils.getattr step_inputs "inputs" ≫= py_utils.to_list;
  (* We pretend that the input is the output of layer -1 for the purposes
     of residual connections. *)
  c ← map_result as_tensor inputs ≫= (λ ts, tf_concat ts 1);
  additional ←
    (if py_utils.contains step_inputs "context"
     then ctx ← py_utils.getattr step_inputs "context"; Ok [ctx]
     else Ok []);
  Ok ({| state1_sub := []; inputs := inputs;
         residual_inputs := [NLeaf c]; output := None |}, additional).

(** The loop of [FProp]: the variables after the first [n] children. *)
Definition FProp_loop (self : t)
    (theta external_inputs step_inputs padding state0 : Value) (n : nat)
  : result Locals :=
  '(st, additional) ← FProp_init step_inputs;
  for_each (FProp_body self theta external_inputs padding state0 additional)
           (seq 0 n) st.

Definition FProp (self : t)
    (theta external_inputs step_inputs padding state0 : Value)
  : result (Value * Value) :=
  st ← FProp_loop self theta external_inputs step_inputs padding state0
         (length (sub self));
  output ← or_raise UnboundLocalError (output st);
  Ok (NMap {[ "output" := output ]},
      NMap {[ "sub" := NList (state1_sub st) ]}).

Definition step (self : t) : Step.t := {|
  Step.PrepareExternalInputs := PrepareExternalInputs self;
  Step.ZeroState := ZeroState self;
  Step.FProp := FProp self;
|}.

(** The recorded output of the child [j], in the variables of [FProp]:
    [residual_inputs] holds the step input at index 0 (the virtual output of
    the layer -1) and the output of the child [j] at index [j + 1]. *)
Definition recorded_output (st : Locals) (j : Z) : option Value :=
  if bool_decide (-1 ≤ j) then residual_inputs st !! Z.to_nat (j + 1) else None.

(** The raw output of the child [i]: the [output] of its [FProp], called as
    the stack calls it, on the recorded output of the child below (the child
    0: on the inputs of the stack). *)
Definition raw_output (self : t)
    (theta external_inputs step_inputs padding state0 : Value)
    (st : Locals) (i : nat) : result Value :=
  inputs ←
    match i with
    | O => py_utils.getattr step_inputs "inputs" ≫= py_utils.to_list
    | S j => below ← or_raise IndexError (recorded_output st (Z.of_nat j));
             Ok [below]
    end;
  additional ←
    (if py_utils.contains step_inputs "context"
     then ctx ← py_utils.getattr step_inputs "context"; Ok [ctx]
     else Ok []);
  child ← sub_at self i;
  theta_i ← field_at theta "sub" i;
  external_i ← field_at external_inputs "sub" i;
  state0_i ← field_at state0 "sub" i;
  '(sub_output, _) ←
    Step.FProp child theta_i external_i
      (NMap {[ "inputs" := NList (inputs ++ additional) ]}) padding state0_i;
  py_utils.getattr sub_output "output".

(** The stack with the residual additive term removed, after the words of
    the specification: each child's raw output is passed unmodified to
    the next child, and the top child's is returned. [chain] runs the
    children from the [i]-th on. *)
Fixpoint chain (theta external_inputs padding state0 : Value)
    (additional : list Value) (children : list Step.t) (i : nat)
    (inputs : list Value) (last : option Value)
  : result (option Value * list Value) :=
  match children with
  | [] => Ok (last, [])
  | child :: children' =>
      theta_i ← field_at theta "sub" i;
      external_i ← field_at external_inputs "sub" i;
      state0_i ← field_at state0 "sub" i;
      '(sub_output, state1_i) ←
        Step.FProp child theta_i external_i
          (NMap {[ "inputs" := NList (inputs ++ additional) ]})
          padding state0_i;
      raw ← py_utils.getattr sub_output "output";
      '(top, states) ←
        chain theta external_inputs padding state0 additional
              children' (S i) [raw] (Some raw);
      Ok (top, state1_i :: states)
  end.

Definition FProp_without_residual (self : t)
    (theta external_inputs step_inputs padding state0 : Value)
  : result (Value * Value) :=
  inputs ← py_utils.getattr step_inputs "inputs" ≫= py_utils.to_list;
  additional ←
    (if py_utils.contains step_inputs "context"
     then ctx ← py_utils.getattr step_inputs "context"; Ok [ctx]
     else Ok []);
  '(top, states) ←
    chain theta external_inputs padding state0 additional
          (sub self) 0 inputs None;
  output ← or_raise UnboundLocalError top;
  Ok (NMap {[ "output" := output ]}, NMap {[ "sub" := NList states ]}).
End with_engine.
End StackStep.

(** ** class GraphStep *)

Module hyperparams.
Section with_engine.
Context `{TensorEngine}.

(** Modelled from the spec: the configuration of a child step, which the
    parameter framework (not in this module) supplies: its [name], empty
    when none is given, and the construction of the child under the name
    it finally gets. *)
Record Params : Type := mk {
  name : string;
  Instantiate : string → result Step.t;
}.
End with_engine.
End hyperparams.

(** [SubStep = collections.namedtuple('SubStep', ['signature',
    'external_signature', 'params'])] *)
Module SubStep.
Section with_engine.
Context `{TensorEngine}.

Record t : Type := mk {
  signature : string;
  external_signature : option string;
  params : hyperparams.Params;
}.
End with_engine.
End SubStep.

(** ['%s_%02d' % (s, i)] *)
Definition format_s_02d (s : string) (i : nat) : string :=
  let d := NilZero.string_of_uint (Nat.to_uint i) in
  s +:+ "_" +:+ (if (String.length d <? 2)%nat then "0" +:+ d else d).

Module GraphStep.

Module Params.
Section with_engine.
Context `{TensorEngine}.

(** [GraphStep.Params()]: the name of the layer, the signature of the
    step output and the list of SubSteps. *)
Record t : Type := mk {
  name : string;
  output_signature : string;
  sub : list SubStep.t;
}.
End with_engine.
End Params.

Section with_engine.
Context `{TensorEngine}.

(** [_seq = collections.namedtuple('_Seq', ['name', 'signature',
    'external_signature', 'step'])] *)
Record Seq : Type := mkSeq {
  name : string;
  signature : builder_layers.Signature;
  external_signature : option builder_layers.Signature;
  step : Step.t;
}.

(** The instance. *)
Record t : Type := mk {
  params : Params.t;
  _seq : list Seq;
  output_signature : builder_layers.Signature;
  children : gmap string Step.t;
}.

(** Modelled from the spec: CreateChild of the component framework (not
    in this module) constructs the child and registers it under its
    name. *)
Definition CreateChild (children : gmap string Step.t) (name : string)
    (params : hyperparams.Params) : result (gmap string Step.t) :=
  child ← hyperparams.Instantiate params name;
  Ok (<[name := child]> children).

(** The body of the loop of [__init__], for the [i]-th SubStep. *)
Definition init_body (st : gmap string Step.t * list Seq)
    (entry : nat * SubStep.t) : result (gmap string Step.t * list Seq) :=
  let '(children, _seq) := st in
  let i := entry.1 in
  let signature := SubStep.signature entry.2 in
  let external_signature := SubStep.external_signature entry.2 in
  let sub_params := SubStep.params entry.2 in
  _ ← assert (bool_decide (signature ≠ ""));
  sig ← builder_layers.GraphSignature signature;
  _ ← assert (bool_decide (length (builder_layers.inputs sig) = 1%nat));
  _ ← assert (bool_decide (builder_layers.outputs sig ≠ []));
  external_sig ←
    match external_signature with
    | Some e =>
        if bool_decide (e ≠ "") then
          external_sig ← builder_layers.GraphSignature e;
          _ ← assert (bool_decide
                        (length (builder_layers.inputs external_sig) = 1%nat));
          _ ← assert (bool_decide (builder_layers.outputs external_sig = []));
          Ok (Some external_sig)
        else Ok None
    | None => Ok None
    end;
  name ←
    (if bool_decide (hyperparams.name sub_params ≠ "")
     then Ok (hyperparams.name sub_params)
     else o ← py_index (builder_layers.outputs sig) 0; Ok (format_s_02d o i));
  children ← CreateChild children name sub_params;
  child ← or_raise KeyError (children !! name);
  Ok (children, _seq ++ [mkSeq name sig external_sig child]).

Definition __init__ (p : Params.t) : result t :=
  _ ← assert (bool_decide (Params.name p ≠ ""));
  '(children, _seq) ←
    for_each init_body (imap pair (Params.sub p)) (∅, []);
  output_signature ← builder_layers.GraphSignature (Params.output_signature p);
  Ok {| params := p; _seq := _seq; output_signature := output_signature;
        children := children |}.

(** [NestedMap(inputs=inputs).Transform(graph_tensors.GetTensor).inputs[0]] *)
Definition pack (graph_tensors : gmap string Value)
    (inputs : list (Nested builder_layers.Path)) : result Value :=
  let template := NMap {[ "inputs" := NList inputs ]} in
  packed ← py_utils.Transform (builder_layers.GetTensor graph_tensors) template;
  l ← py_utils.getattr packed "inputs";
  py_utils.getindex l 0.

Definition PrepareExternalInputs_body
    (graph_tensors : gmap string Value) (theta : Value)
    (prepared_inputs : gmap string Value) (seq : Seq)
  : result (gmap string Value) :=
  match external_signature seq with
  | Some external_signature =>
      seq_external_inputs ←
        pack graph_tensors (builder_layers.inputs external_signature);
      theta_n ← py_utils.getitem theta (name seq);
      p ← Step.PrepareExternalInputs (step seq) theta_n seq_external_inputs;
      Ok (<[name seq := p]> prepared_inputs)
  | None => Ok (<[name seq := py_utils.NestedMap]> prepared_inputs)
  end.

Definition PrepareExternalInputs (self : t) (theta external_inputs : Value)
  : result Value :=
  graph_tensors ←
    builder_layers.StoreTensor builder_layers.GraphTensors
      "external_inputs" external_inputs;
  NMap <$> for_each (PrepareExternalInputs_body graph_tensors theta)
                    (_seq self) ∅.

Definition ZeroState (self : t) (theta prepared_inputs : Value)
    (batch_size : Z) : result Value :=
  NMap <$> for_each
    (λ state0 seq,
       theta_n ← py_utils.getitem theta (name seq);
       prepared_n ← py_utils.getitem prepared_inputs (name seq);
       s ← Step.ZeroState (step seq) theta_n prepared_n batch_size;
       Ok (<[name seq := s]> state0))
    (_seq self) ∅.

(** The variables of [FProp] that its loop updates, and the log that
    [tf.logging.vlog] writes: the names of the sub-steps called. *)
Record Locals : Type := mkLocals {
  graph_tensors : gmap string Value;
  state1 : gmap string Value;
  vlog : list string;
}.

(** The arguments of one call of a child's [FProp]. *)
Record Call : Type := mkCall {
  call_theta : Value;
  call_external_inputs : Value;
  call_step_inputs : Value;
  call_padding : Value;
  call_state0 : Value;
}.

Definition invoke (child : Step.t) (c : Call) : result (Value * Value) :=
  Step.FProp child (call_theta c) (call_external_inputs c)
    (call_step_inputs c) (call_padding c) (call_state0 c).

(** The arguments with which the loop of [FProp] calls the sub-step
    [seq]. *)
Definition FProp_call (theta external_inputs padding state0 : Value)
    (graph_tensors : gmap string Value) (seq : Seq) : result Call :=
  external ←
    match external_signature seq with
    | Some _ => py_utils.getitem external_inputs (name seq)
    | None => Ok NNone
    end;
  input_args ← pack graph_tensors (builder_layers.inputs (signature seq));
  theta_n ← py_utils.getitem theta (name seq);
  state0_n ← py_utils.getitem state0 (name seq);
  Ok (mkCall theta_n external input_args padding state0_n).

(** The body of the loop of [FProp]. *)
Definition FProp_body (theta external_inputs padding state0 : Value)
    (st : Locals) (seq : Seq) : result Locals :=
  let vlog := vlog st ++ [name seq] in
  c ← FProp_call theta external_inputs padding state0 (graph_tensors st) seq;
  '(out, seq_state1) ← invoke (step seq) c;
  o ← py_index (builder_layers.outputs (signature seq)) 0;
  graph_tensors ← builder_layers.StoreTensor (graph_tensors st) o out;
  Ok {| graph_tensors := graph_tensors;
        state1 := <[name seq := seq_state1]> (state1 st);
        vlog := vlog |}.

(** The variables of [FProp] when its loop starts. *)
Definition FProp_init (external_inputs step_inputs : Value) : result Locals :=
  graph_tensors ←
    builder_layers.StoreTensor builder_layers.GraphTensors
      "external_inputs" external_inputs;
  graph_tensors ←
    builder_layers.StoreTensor graph_tensors "step_inputs" step_inputs;
  Ok {| graph_tensors := graph_tensors; state1 := ∅; vlog := [] |}.

(** The loop of [FProp]: the variables after the sub-steps [seqs]. *)
Definition FProp_loop (theta external_inputs step_inputs padding state0 : Value)
    (seqs : list Seq) : result Locals :=
  st ← FProp_init external_inputs step_inputs;
  for_each (FProp_body theta external_inputs padding state0) seqs st.

Definition FProp (self : t)
    (theta external_inputs step_inputs padding state0 : Value)
  : result (Value * Value) :=
  st ← FProp_loop theta external_inputs step_inputs padding state0 (_seq self);
  output_tensors ←
    pack (graph_tensors st) (builder_layers.inputs (output_signature self));
  Ok (output_tensors, NMap (state1 st)).

Definition as_step (self : t) : Step.t := {|
  Step.PrepareExternalInputs := PrepareExternalInputs self;
  Step.ZeroState := ZeroState self;
  Step.FProp := FProp self;
|}.
End with_engine.
End GraphStep.

(** ** A concrete engine and concrete steps, to run the code on *)

(** Tensors of rank two, [batch, features], with integer entries. *)
Definition matrix_concat (values : list (list (list Z))) (axis : Z)
  : result (list (list Z)) :=
  match values with
  | [] => Err ValueError
  | m :: ms =>
      if bool_decide (axis = 1) then
        for_each
          (λ acc m', if bool_decide (length acc = length m')
                     then Ok (zip_with app acc m') else Err ValueError)
          ms m
      else Err ValueError
  end.

Definition matrix_add (a b : list (list Z)) : result (list (list Z)) :=
  if bool_decide (length <$> a = length <$> b)
  then Ok (zip_with (zip_with Z.add) a b) else Err ValueError.

Definition matrix_engine : TensorEngine := {|
  Tensor := list (list Z);
  tf_concat := matrix_concat;
  tf_add := matrix_add;
|}.

Section examples.
#[local] Existing Instance matrix_engine.

(** A tensor of the concrete engine, as a value. *)
Definition leaf (m : list (list Z)) : Value := @NLeaf (@Tensor matrix_engine) m.

(** A layer that multiplies its first input by [k], and packs the product
    as the stack expects it: [NestedMap(output=...)]. *)
Definition scale_layer (k : Z) : base_layer.BaseLayer := {|
  base_layer.FProp := λ theta inputs padding,
    match inputs with
    | NList (NLeaf m :: _) =>
        Ok (NMap {[ "output" := NLeaf (map (map (Z.mul k)) m) ]})
    | _ => Err TypeError
    end;
|}.

Definition scale_step (k : Z) : Step.t :=
  StatelessLayerStep.step (StatelessLayerStep.mk (scale_layer k)).

(** A step that returns what it received: its inputs as its output, and
    its state unchanged. *)
Definition echo_step : Step.t := {|
  Step.PrepareExternalInputs := λ theta external_inputs, Ok external_inputs;
  Step.ZeroState := λ theta external_inputs batch_size, Ok py_utils.NestedMap;
  Step.FProp := λ theta external_inputs step_inputs padding state0,
    Ok (step_inputs, state0);
|}.

(** A step that returns the external inputs it is called with. *)
Definition external_step : Step.t := {|
  Step.PrepareExternalInputs := λ theta external_inputs, Ok external_inputs;
  Step.ZeroState := λ theta external_inputs batch_size, Ok py_utils.NestedMap;
  Step.FProp := λ theta external_inputs step_inputs padding state0,
    Ok (external_inputs, state0);
|}.

Definition params_of (name : string) (s : Step.t) : hyperparams.Params :=
  {| hyperparams.name := name; hyperparams.Instantiate := λ _, Ok s |}.

(** A stack of two stateless layers, residuals from layer 1 on, with a
    stride of 3. *)
Definition stack_stride3 : StackStep.t := {|
  StackStep.sub := [scale_step 2; scale_step 3];
  StackStep.residual_start := 1;
  StackStep.residual_stride := 3;
|}.

(** The same stack with the residuals of every layer, stride 1. *)
Definition stack_residual : StackStep.t := {|
  StackStep.sub := [scale_step 2; scale_step 3];
  StackStep.residual_start := 0;
  StackStep.residual_stride := 1;
|}.

(** The same stack without residuals. *)
Definition stack_plain : StackStep.t := {|
  StackStep.sub := [scale_step 2; scale_step 3];
  StackStep.residual_start := -1;
  StackStep.residual_stride := 1;
|}.

Definition stack_theta : Value :=
  NMap {[ "sub" := NList [NMap {[ "layer" := NNone ]};
                          NMap {[ "layer" := NNone ]}] ]}.
Definition stack_external : Value :=
  NMap {[ "sub" := NList [py_utils.NestedMap; py_utils.NestedMap] ]}.
Definition stack_state0 : Value :=
  NMap {[ "sub" := NList [py_utils.NestedMap; py_utils.NestedMap] ]}.
Definition stack_inputs : Value :=
  NMap {[ "inputs" := NList [NLeaf [[1; 10]]] ]}.

(** Two sub-steps that declare the same output name. *)
Definition graph_same_output : GraphStep.Params.t := {|
  GraphStep.Params.name := "graph";
  GraphStep.Params.output_signature := "(inputs=[layer_0])->output";
  GraphStep.Params.sub := [
    SubStep.mk "(inputs=[step_inputs.inputs])->layer_0" None
               (params_of "" echo_step);
    SubStep.mk "(inputs=[step_inputs.inputs])->layer_0" None
               (params_of "" echo_step) ];
|}.

(** A sub-step that declares two output names. *)
Definition graph_two_outputs : GraphStep.Params.t := {|
  GraphStep.Params.name := "graph";
  GraphStep.Params.output_signature := "(inputs=[a])->output";
  GraphStep.Params.sub := [
    SubStep.mk "(inputs=[step_inputs.inputs])->a,b" None
               (params_of "" echo_step) ];
|}.

(** A sub-step whose signature has two input groups. *)
Definition graph_two_groups : GraphStep.Params.t := {|
  GraphStep.Params.name := "graph";
  GraphStep.Params.output_signature := "(inputs=[c])->output";
  GraphStep.Params.sub := [
    SubStep.mk "(step_inputs.a,step_inputs.b)->c" None
               (params_of "" echo_step) ];
|}.

(** The scenario of the specification: A feeds B, B is the output. *)
Definition graph_chain (A B : hyperparams.Params) : GraphStep.Params.t := {|
  GraphStep.Params.name := "graph";
  GraphStep.Params.output_signature := "(inputs=[layer_1])->output";
  GraphStep.Params.sub := [
    SubStep.mk "(inputs=[step_inputs.inputs])->layer_0" None A;
    SubStep.mk "(inputs=[layer_0])->layer_1" None B ];
|}.

(** A sub-step without an external signature, which returns the external
    inputs its FProp is called with. *)
Definition graph_no_external : GraphStep.Params.t := {|
  GraphStep.Params.name := "graph";
  GraphStep.Params.output_signature := "(inputs=[seen])->output";
  GraphStep.Params.sub := [
    SubStep.mk "(inputs=[step_inputs.inputs])->seen" None
               (params_of "probe" external_step) ];
|}.

Definition one_tensor : Value := NMap {[ "inputs" := NList [NLeaf [[7]]] ]}.

(** A stack without children; a stack whose stride is 0; a stack whose
    [residual_start] is some negative number. *)
Definition stack_empty : StackStep.t := {|
  StackStep.sub := [];
  StackStep.residual_start := -1;
  StackStep.residual_stride := 1;
|}.

Definition stack_stride0 : StackStep.t := {|
  StackStep.sub := [scale_step 2; scale_step 3];
  StackStep.residual_start := 0;
  StackStep.residual_stride := 0;
|}.

Definition stack_negative : StackStep.t := {|
  StackStep.sub := [scale_step 2; scale_step 3];
  StackStep.residual_start := -5;
  StackStep.residual_stride := 7;
|}.

(** A graph of two sub-steps, as [__init__] builds it: "a" echoes the inputs
    of the step and declares two output names; "b" has an external
    signature and returns the external inputs it is called with. *)
Definition seq_a : GraphStep.Seq := {|
  GraphStep.name := "a";
  GraphStep.signature :=
    builder_layers.mkSignature
      [NMap {[ "inputs" :=
                 NList [NLeaf (builder_layers.mkPath "step_inputs"
                                 [builder_layers.Field "inputs"])] ]}]
      ["layer_0"; "alias"];
  GraphStep.external_signature := None;
  GraphStep.step := echo_step;
|}.

Definition seq_b : GraphStep.Seq := {|
  GraphStep.name := "b";
  GraphStep.signature :=
    builder_layers.mkSignature
      [NMap {[ "inputs" :=
                 NList [NLeaf (builder_layers.mkPath "layer_0" [])] ]}]
      ["layer_1"];
  GraphStep.external_signature :=
    Some (builder_layers.mkSignature
            [NLeaf (builder_layers.mkPath "external_inputs"
                      [builder_layers.Field "extra"])] []);
  GraphStep.step := external_step;
|}.

Definition graph_ab : GraphStep.t := {|
  GraphStep.params :=
    {| GraphStep.Params.name := "graph";
       GraphStep.Params.output_signature := "(inputs=[layer_1])->output";
       GraphStep.Params.sub := [
         SubStep.mk "(inputs=[step_inputs.inputs])->layer_0,alias" None
                    (params_of "a" echo_step);
         SubStep.mk "(inputs=[layer_0])->layer_1"
                    (Some "external_inputs.extra")
                    (params_of "b" external_step) ] |};
  GraphStep._seq := [seq_a; seq_b];
  GraphStep.output_signature :=
    builder_layers.mkSignature
      [NMap {[ "inputs" :=
                 NList [NLeaf (builder_layers.mkPath "layer_1" [])] ]}]
      ["output"];
  GraphStep.children := {[ "a" := echo_step; "b" := external_step ]};
|}.

Definition graph_theta : Value := NMap {[ "a" := NNone; "b" := NNone ]}.
Definition graph_external : Value := NMap {[ "extra" := leaf [[9]] ]}.
Definition graph_prepared : Value :=
  NMap {[ "a" := py_utils.NestedMap; "b" := leaf [[9]] ]}.
Definition graph_state0 : Value :=
  NMap {[ "a" := py_utils.NestedMap; "b" := py_utils.NestedMap ]}.

(** The variables of [GraphStep.FProp] on these arguments: when its loop
    starts, after the sub-step "a", and after the sub-step "b". *)
Definition graph_locals0 : GraphStep.Locals := {|
  GraphStep.graph_tensors :=
    <["step_inputs" := one_tensor]>
      (<["external_inputs" := graph_prepared]> ∅);
  GraphStep.state1 := ∅;
  GraphStep.vlog := [];
|}.

Definition graph_locals_a : GraphStep.Locals := {|
  GraphStep.graph_tensors :=
    <["layer_0" := NMap {[ "inputs" := NList [NList [leaf [[7]]]] ]}]>
      (GraphStep.graph_tensors graph_locals0);
  GraphStep.state1 := {[ "a" := py_utils.NestedMap ]};
  GraphStep.vlog := ["a"];
|}.

Definition graph_locals_ab : GraphStep.Locals := {|
  GraphStep.graph_tensors :=
    <["layer_1" := leaf [[9]]]> (GraphStep.graph_tensors graph_locals_a);
  GraphStep.state1 :=
    {[ "a" := py_utils.NestedMap; "b" := py_utils.NestedMap ]};
  GraphStep.vlog := ["a"; "b"];
|}.

End examples.

(** * Properties *)

(** ** The error monad and the loops *)

Lemma bind_Ok {A B} (m : result A) (f : A → result B) (b : B) :
  m ≫= f = Ok b ↔ ∃ a, m = Ok a ∧ f a = Ok b.
Proof.
  destruct m as [a|e]; simpl.
  - split; [eauto | by intros (? & [= ->] & ?)].
  - split; [done | by intros (? & ? & ?)].
Qed.

Lemma fmap_Ok {A B} (m : result A) (f : A → B) (b : B) :
  f <$> m = Ok b ↔ ∃ a, m = Ok a ∧ b = f a.
Proof.
  destruct m as [a|e]; simpl.
  - split; [intros [= <-]; eauto | by intros (? & [= ->] & ->)].
  - split; [done | by intros (? & ? & ?)].
Qed.

Lemma assert_Ok (c : bool) (u : unit) : assert c = Ok u ↔ c = true.
Proof. destruct c, u; simpl; split; congruence. Qed.

Lemma or_raise_Ok {A} (e : PyError) (o : option A) (a : A) :
  or_raise e o = Ok a ↔ o = Some a.
Proof. destruct o; simpl; split; congruence. Qed.

(** Takes a hypothesis [m ≫= f = Ok b] apart, as far as it goes. *)
Ltac inv_Ok H :=
  repeat match type of H with
  | (_ ≫= _) = Ok _ =>
      let x := fresh "x" in let Hx := fresh "H" x in
      apply bind_Ok in H as (x & Hx & H)
  | (let '(_, _) := ?p in _) = Ok _ => destruct p
  end.

Lemma for_each_app {S X} (body : S → X → result S) (l1 l2 : list X) (st : S) :
  for_each body (l1 ++ l2) st = for_each body l1 st ≫= for_each body l2.
Proof.
  revert st. induction l1 as [|x l1 IH]; intros st; simpl; [done|].
  destruct (body st x); simpl; auto.
Qed.

Lemma for_each_snoc {S X} (body : S → X → result S) (l : list X) (x : X) (st : S) :
  for_each body (l ++ [x]) st = for_each body l st ≫= (λ st', body st' x).
Proof.
  rewrite for_each_app. destruct (for_each body l st) as [st'|]; simpl; [|done].
  by destruct (body st' x).
Qed.

(** A loop whose body fails at one element, whatever the state, fails. *)
Lemma for_each_fails {S X} (body : S → X → result S) (l : list X) (x : X) (st : S) :
  x ∈ l → (∀ st', is_Err (body st' x)) → is_Err (for_each body l st).
Proof.
  intros Hx Hfail. revert st.
  induction l as [|y l IH]; intros st; [by apply elem_of_nil in Hx|].
  simpl. apply elem_of_cons in Hx as [<-|Hx].
  - destruct (Hfail st) as [e ->]. by exists e.
  - destruct (body st y) as [st'|e]; simpl; [by apply IH | by exists e].
Qed.

(** An invariant of a loop that returns. *)
Lemma for_each_invariant {S X} (I : list X → S → Prop)
    (body : S → X → result S) (l : list X) (st0 st : S) :
  I [] st0 →
  (∀ done x rest st st',
     l = done ++ x :: rest → I done st → body st x = Ok st' →
     I (done ++ [x]) st') →
  for_each body l st0 = Ok st → I l st.
Proof.
  intros Hinit Hstep.
  enough (Hgen : ∀ rest done st1,
            l = done ++ rest → I done st1 →
            for_each body rest st1 = Ok st → I l st)
    by (eapply (Hgen l []); eauto).
  induction rest as [|x rest IH]; intros done st1 Hl Hdone; simpl.
  - intros [= <-]. by rewrite Hl, app_nil_r.
  - intros (st2 & Hx & Hrest)%bind_Ok.
    apply (IH (done ++ [x]) st2); [by rewrite <- app_assoc | eauto | done].
Qed.

Lemma py_index_nonneg {A} (l : list A) (k : Z) (a : A) :
  0 ≤ k → py_index l k = Ok a → l !! Z.to_nat k = Some a.
Proof.
  intros Hk. unfold py_index.
  repeat case_bool_decide; try lia; try done; by intros ?%or_raise_Ok.
Qed.

Lemma py_index_lookup {A} (l : list A) (i : nat) (a : A) :
  l !! i = Some a → py_index l (Z.of_nat i) = Ok a.
Proof.
  intros Hl. pose proof (lookup_lt_Some _ _ _ Hl). unfold py_index.
  rewrite bool_decide_true by lia. by rewrite Nat2Z.id, Hl.
Qed.

Lemma as_tensor_Ok `{TensorEngine} (v : Value) (t : Tensor) :
  as_tensor v = Ok t ↔ v = NLeaf t.
Proof. destruct v; simpl; split; congruence. Qed.

(** ** StatelessLayerStep *)

Section StatelessLayerStep_properties.
Context `{TensorEngine}.

(** C8. [PrepareExternalInputs] and [ZeroState] of a StatelessLayerStep
    return an empty NestedMap whatever their arguments; the state that
    [FProp] returns is an empty NestedMap whatever [step_inputs], [padding]
    and [state0] are, and [FProp] returns it as soon as the wrapped layer
    returns an output. *)
Theorem StatelessLayerStep_empty_state (self : StatelessLayerStep.t) :
  (∀ theta external_inputs,
     StatelessLayerStep.PrepareExternalInputs self theta external_inputs
     = Ok py_utils.NestedMap) ∧
  (∀ theta external_inputs batch_size,
     StatelessLayerStep.ZeroState self theta external_inputs batch_size
     = Ok py_utils.NestedMap) ∧
  (∀ theta external_inputs step_inputs padding state0 output state1,
     StatelessLayerStep.FProp self theta external_inputs step_inputs
       padding state0 = Ok (output, state1) →
     state1 = py_utils.NestedMap) ∧
  (∀ theta external_inputs step_inputs padding state0 theta_layer inputs output,
     py_utils.getattr theta "layer" = Ok theta_layer →
     py_utils.getattr step_inputs "inputs" = Ok inputs →
     base_layer.FProp (StatelessLayerStep.layer self) theta_layer inputs
       (match padding with NNone => None | _ => Some padding end) = Ok output →
     StatelessLayerStep.FProp self theta external_inputs step_inputs
       padding state0 = Ok (output, py_utils.NestedMap)).
Proof.
  split; [done|]. split; [done|]. split.
  - intros theta external_inputs step_inputs padding state0 output state1 HF.
    unfold StatelessLayerStep.FProp in HF. inv_Ok HF. by injection HF as _ <-.
  - intros theta external_inputs step_inputs padding state0 theta_layer
      inputs output Htheta Hinputs Hlayer.
    unfold StatelessLayerStep.FProp. rewrite Htheta, Hinputs. simpl.
    by rewrite Hlayer.
Qed.
End StatelessLayerStep_properties.

Lemma StatelessLayerStep_empty_state_witness :
  let self := @StatelessLayerStep.mk matrix_engine (scale_layer 2) in
  py_utils.getattr (NMap {[ "layer" := NNone ]} : @Nested (@Tensor matrix_engine))
    "layer" = Ok NNone ∧
  py_utils.getattr stack_inputs "inputs" = Ok (NList [NLeaf [[1; 10]]]) ∧
  base_layer.FProp (StatelessLayerStep.layer self) NNone
    (NList [NLeaf [[1; 10]]]) None
  = Ok (NMap {[ "output" := NLeaf [[2; 20]] ]}) ∧
  StatelessLayerStep.FProp self (NMap {[ "layer" := NNone ]}) NNone
    stack_inputs NNone (NLeaf [[5]])
  = Ok (NMap {[ "output" := NLeaf [[2; 20]] ]}, py_utils.NestedMap).
Proof.
  intros self.
  assert (H1 : py_utils.getattr
                 (NMap {[ "layer" := NNone ]} : @Nested (@Tensor matrix_engine))
                 "layer" = Ok NNone) by reflexivity.
  assert (H2 : py_utils.getattr stack_inputs "inputs"
               = Ok (NList [NLeaf [[1; 10]]])) by reflexivity.
  assert (H3 : base_layer.FProp (StatelessLayerStep.layer self) NNone
                 (NList [NLeaf [[1; 10]]]) None
               = Ok (NMap {[ "output" := NLeaf [[2; 20]] ]})) by reflexivity.
  split; [exact H1|]. split; [exact H2|]. split; [exact H3|].
  exact (proj2 (proj2 (proj2 (@StatelessLayerStep_empty_state matrix_engine self)))
           (NMap {[ "layer" := NNone ]}) NNone stack_inputs NNone (NLeaf [[5]])
           NNone (NList [NLeaf [[1; 10]]]) (NMap {[ "output" := NLeaf [[2; 20]] ]})
           H1 H2 H3).
Defined.

(** ** StackStep: the residual connections *)

Section StackStep_residual.
Context `{TensorEngine}.

(** The assertion of [add_residual] bounds the index from above only: a
    negative index passes it and is read from the end of the list. *)
Lemma add_residual_negative_index (self : StackStep.t) (i : nat)
    (residual_inputs : list Value) (output : Value) (k : Z) :
  k = Z.of_nat i + 1 - StackStep.residual_stride self →
  - Z.of_nat (length residual_inputs) ≤ k < 0 →
  StackStep.add_residual self i residual_inputs output
  = (r ← or_raise IndexError
           (residual_inputs !! Z.to_nat (Z.of_nat (length residual_inputs) + k));
     a ← as_tensor output; b ← as_tensor r; NLeaf <$> tf_add a b).
Proof.
  intros -> Hk. unfold StackStep.add_residual, py_index.
  repeat case_bool_decide; simpl; (done || lia).
Qed.
End StackStep_residual.

(** C2. The stack [stack_stride3] has two layers, residuals from layer 1 on
    and a stride of 3: at layer 1 the lookback index is 1 + 1 - 3 = -1. The
    assertion of [FProp] does not fail there: [FProp] returns, and the addend
    of layer 1 is the last recorded output, that of layer 0, [[2; 20]], read
    at the index -1: 3 * [[2; 20]] + [[2; 20]] = [[8; 80]]. *)
Theorem StackStep_negative_lookback_wraps :
  Z.of_nat 1 + 1 - StackStep.residual_stride stack_stride3 = -1 ∧
  StackStep.add_residual stack_stride3 1
    [NLeaf [[1; 10]]; NLeaf [[2; 20]]] (NLeaf [[6; 60]])
  = Ok (NLeaf [[8; 80]]) ∧
  StackStep.FProp stack_stride3 stack_theta stack_external stack_inputs
    NNone stack_state0
  = Ok (NMap {[ "output" := NLeaf [[8; 80]] ]}, stack_state0).
Proof. split; [|split]; vm_compute; reflexivity. Qed.

Section StackStep_loop.
Context `{TensorEngine}.
Context (self : StackStep.t) (theta external_inputs step_inputs padding state0 : Value).

Abbreviation body := (StackStep.FProp_body self theta external_inputs padding state0).

(** What one iteration of the loop of [FProp] does, when it returns. *)
Lemma FProp_body_Ok (additional : list Value) (st st' : StackStep.Locals) (i : nat) :
  body additional st i = Ok st' →
  ∃ child theta_i external_i state0_i sub_output state1_i raw out,
    StackStep.sub self !! i = Some child ∧
    StackStep.field_at theta "sub" i = Ok theta_i ∧
    StackStep.field_at external_inputs "sub" i = Ok external_i ∧
    StackStep.field_at state0 "sub" i = Ok state0_i ∧
    Step.FProp child theta_i external_i
      (NMap {[ "inputs" := NList (StackStep.inputs st ++ additional) ]})
      padding state0_i = Ok (sub_output, state1_i) ∧
    py_utils.getattr sub_output "output" = Ok raw ∧
    (if bool_decide (StackStep.residual_start self ≤ Z.of_nat i)
        && bool_decide (0 ≤ StackStep.residual_start self)
     then StackStep.add_residual self i (StackStep.residual_inputs st) raw
     else Ok raw) = Ok out ∧
    st' = {| StackStep.state1_sub := StackStep.state1_sub st ++ [state1_i];
             StackStep.inputs := [out];
             StackStep.residual_inputs := StackStep.residual_inputs st ++ [out];
             StackStep.output := Some out |}.
Proof.
  unfold StackStep.FProp_body. intros HF.
  apply bind_Ok in HF as (child & Hchild & HF).
  apply bind_Ok in HF as (theta_i & Htheta & HF).
  apply bind_Ok in HF as (external_i & Hext & HF).
  apply bind_Ok in HF as (state0_i & Hstate & HF).
  apply bind_Ok in HF as ([sub_output state1_i] & Hcall & HF).
  apply bind_Ok in HF as (raw & Hraw & HF).
  apply bind_Ok in HF as (out & Hout & HF).
  injection HF as <-.
  apply or_raise_Ok in Hchild.
  exists child, theta_i, external_i, state0_i, sub_output, state1_i, raw, out.
  done.
Qed.

(** The loop of [FProp] goes one child further. *)
Lemma FProp_loop_S (n : nat) :
  StackStep.FProp_loop self theta external_inputs step_inputs padding state0 (S n)
  = '(st0, additional) ← StackStep.FProp_init step_inputs;
    st ← for_each (body additional) (seq 0 n) st0;
    body additional st n.
Proof.
  unfold StackStep.FProp_loop.
  destruct (StackStep.FProp_init step_inputs) as [[st0 additional]|]; [|done].
  lazy beta iota delta [mbind result_bind]. by rewrite seq_S, for_each_snoc.
Qed.

Lemma FProp_loop_S_Ok (n : nat) (st' : StackStep.Locals) :
  StackStep.FProp_loop self theta external_inputs step_inputs padding state0 (S n)
  = Ok st' →
  ∃ st0 additional st,
    StackStep.FProp_init step_inputs = Ok (st0, additional) ∧
    StackStep.FProp_loop self theta external_inputs step_inputs padding state0 n
    = Ok st ∧
    body additional st n = Ok st'.
Proof.
  rewrite FProp_loop_S. intros ([st0 additional] & Hinit & HF)%bind_Ok.
  apply bind_Ok in HF as (st & Hloop & Hbody).
  exists st0, additional, st. split; [done|]. split; [|done].
  unfold StackStep.FProp_loop. by rewrite Hinit.
Qed.

(** The sizes of the lists that the loop builds. *)
Lemma FProp_loop_lengths (n : nat) (st : StackStep.Locals) :
  StackStep.FProp_loop self theta external_inputs step_inputs padding state0 n
  = Ok st →
  length (StackStep.residual_inputs st) = S n ∧
  length (StackStep.state1_sub st) = n.
Proof.
  revert st. induction n as [|n IH]; intros st.
  - unfold StackStep.FProp_loop, StackStep.FProp_init. simpl. intros HF.
    apply bind_Ok in HF as ([st0 additional] & Hinit & [= <-]).
    apply bind_Ok in Hinit as (inputs & _ & Hinit).
    apply bind_Ok in Hinit as (c & _ & Hinit).
    apply bind_Ok in Hinit as (add & _ & [= <- _]). done.
  - intros (st0 & additional & st1 & _ & Hloop & Hbody)%FProp_loop_S_Ok.
    destruct (IH _ Hloop) as [Hr Hs].
    apply FProp_body_Ok in Hbody
      as (? & ? & ? & ? & ? & ? & ? & ? & _ & _ & _ & _ & _ & _ & _ & ->).
    simpl. rewrite !length_app, Hr, Hs. simpl. lia.
Qed.

(** A loop that returns on [n] children returns on fewer, and what it has
    recorded then stays. *)
Lemma FProp_loop_prefix (m n : nat) (st : StackStep.Locals) :
  (m ≤ n)%nat →
  StackStep.FProp_loop self theta external_inputs step_inputs padding state0 n
  = Ok st →
  ∃ st_m,
    StackStep.FProp_loop self theta external_inputs step_inputs padding state0 m
    = Ok st_m ∧
    StackStep.residual_inputs st_m `prefix_of` StackStep.residual_inputs st ∧
    StackStep.state1_sub st_m `prefix_of` StackStep.state1_sub st.
Proof.
  intros Hmn. revert st. induction Hmn as [|n Hmn IH]; intros st HF.
  - by exists st.
  - apply FProp_loop_S_Ok in HF as (st0 & additional & st1 & _ & Hloop & Hbody).
    destruct (IH _ Hloop) as (st_m & Hm & Hpre & Hpre').
    exists st_m. split; [done|].
    apply FProp_body_Ok in Hbody
      as (? & ? & ? & ? & ? & ? & ? & ? & _ & _ & _ & _ & _ & _ & _ & ->).
    simpl. split; by apply prefix_app_r.
Qed.

(** After the child [n], the inputs of the next child and the output of the
    stack are the output recorded for [n]. *)
Lemma FProp_loop_last (n : nat) (st : StackStep.Locals) :
  StackStep.FProp_loop self theta external_inputs step_inputs padding state0 (S n)
  = Ok st →
  ∃ out,
    StackStep.recorded_output st (Z.of_nat n) = Some out ∧
    StackStep.inputs st = [out] ∧
    StackStep.output st = Some out.
Proof.
  intros HF.
  apply FProp_loop_S_Ok in HF as (st0 & additional & st1 & _ & Hloop & Hbody).
  apply FProp_loop_lengths in Hloop as [Hr _].
  apply FProp_body_Ok in Hbody
    as (? & ? & ? & ? & ? & ? & ? & out & _ & _ & _ & _ & _ & _ & _ & ->).
  exists out. unfold StackStep.recorded_output. simpl.
  rewrite bool_decide_true by lia.
  replace (Z.to_nat (Z.of_nat n + 1)) with (S n) by lia.
  split; [|done]. rewrite lookup_app_r by lia. by rewrite Hr, Nat.sub_diag.
Qed.

Lemma FProp_init_Ok (st0 : StackStep.Locals) (additional : list Value) :
  StackStep.FProp_init step_inputs = Ok (st0, additional) →
  ∃ inputs ts c,
    py_utils.getattr step_inputs "inputs" ≫= py_utils.to_list = Ok inputs ∧
    map_result as_tensor inputs = Ok ts ∧
    tf_concat ts 1 = Ok c ∧
    (if py_utils.contains step_inputs "context"
     then ctx ← py_utils.getattr step_inputs "context"; Ok [ctx]
     else Ok []) = Ok additional ∧
    st0 = {| StackStep.state1_sub := []; StackStep.inputs := inputs;
             StackStep.residual_inputs := [NLeaf c];
             StackStep.output := None |}.
Proof.
  unfold StackStep.FProp_init. intros HF.
  apply bind_Ok in HF as (inputs & Hinputs & HF).
  apply bind_Ok in HF as (c & Hc & HF).
  apply bind_Ok in HF as (add & Hadd & [= <- <-]).
  apply bind_Ok in Hc as (ts & Hts & Hc).
  by exists inputs, ts, c.
Qed.

Lemma FProp_loop_0 (st : StackStep.Locals) :
  StackStep.FProp_loop self theta external_inputs step_inputs padding state0 0
  = Ok st →
  ∃ additional, StackStep.FProp_init step_inputs = Ok (st, additional).
Proof.
  unfold StackStep.FProp_loop.
  intros ([st0 additional] & Hinit & [= <-])%bind_Ok. by exists additional.
Qed.

(** The child [i] is called on the output recorded for the child below. *)
Lemma FProp_loop_inputs (i : nat) (st_i : StackStep.Locals) :
  StackStep.FProp_loop self theta external_inputs step_inputs padding state0 i
  = Ok st_i →
  match i with
  | O => py_utils.getattr step_inputs "inputs" ≫= py_utils.to_list
  | S j => below ← or_raise IndexError
                      (StackStep.recorded_output st_i (Z.of_nat j));
           Ok [below]
  end = Ok (StackStep.inputs st_i).
Proof.
  destruct i as [|j]; intros HF.
  - apply FProp_loop_0 in HF as (additional & Hinit).
    by apply FProp_init_Ok in Hinit as (inputs & ts & c & -> & _ & _ & _ & ->).
  - apply FProp_loop_last in HF as (out & -> & -> & _). done.
Qed.

(** What is recorded after some children is still recorded at the end. *)
Lemma recorded_output_prefix (st1 st2 : StackStep.Locals) (j : Z) (v : Value) :
  StackStep.residual_inputs st1 `prefix_of` StackStep.residual_inputs st2 →
  StackStep.recorded_output st1 j = Some v →
  StackStep.recorded_output st2 j = Some v.
Proof.
  unfold StackStep.recorded_output. intros Hpre.
  case_bool_decide; [|done]. intros Hv. by eapply prefix_lookup_Some.
Qed.

(** The residual connection of one layer, read in the variables of a loop
    that has returned. *)
Lemma FProp_loop_residual (n i : nat) (st : StackStep.Locals) :
  StackStep.FProp_loop self theta external_inputs step_inputs padding state0 n
  = Ok st →
  (i < n)%nat →
  0 ≤ StackStep.residual_start self ≤ Z.of_nat i →
  -1 ≤ Z.of_nat i - StackStep.residual_stride self →
  ∃ raw below out,
    StackStep.raw_output self theta external_inputs step_inputs padding state0
      st i = Ok (NLeaf raw) ∧
    StackStep.recorded_output st (Z.of_nat i - StackStep.residual_stride self)
    = Some (NLeaf below) ∧
    StackStep.recorded_output st (Z.of_nat i) = Some (NLeaf out) ∧
    tf_add raw below = Ok out.
Proof.
  intros Hloop Hi Hstart Hstride.
  destruct (FProp_loop_prefix (S i) n st) as (st' & Hloop' & Hpre & _);
    [lia | done |].
  apply FProp_loop_S_Ok in Hloop'
    as (st0 & additional & st_i & Hinit & Hloop_i & Hbody).
  pose proof (FProp_loop_inputs i st_i Hloop_i) as Hin.
  destruct (FProp_loop_lengths _ _ Hloop_i) as [Hlen _].
  apply FProp_init_Ok in Hinit as (inputs0 & ts & c & _ & _ & _ & Hadd & _).
  apply FProp_body_Ok in Hbody
    as (child & theta_i & external_i & state0_i & sub_output & state1_i & raw
        & out & Hchild & Htheta & Hext & Hstate & Hcall & Hraw & Hres & ->).
  simpl in Hpre.
  assert (Hpre_i : StackStep.residual_inputs st_i
                   `prefix_of` StackStep.residual_inputs st)
    by (etrans; [by apply prefix_app_r | exact Hpre]).
  rewrite !bool_decide_true in Hres by lia. simpl in Hres.
  unfold StackStep.add_residual in Hres.
  apply bind_Ok in Hres as (u & _ & Hres).
  apply bind_Ok in Hres as (r & Hr & Hres).
  apply bind_Ok in Hres as (a & ->%as_tensor_Ok & Hres).
  apply bind_Ok in Hres as (b & ->%as_tensor_Ok & Hres).
  apply fmap_Ok in Hres as (sum & Hsum & ->).
  apply py_index_nonneg in Hr; [|lia].
  exists a, b, sum. split; [|split; [|split]].
  - unfold StackStep.raw_output.
    assert (Hin' :
      match i with
      | O => py_utils.getattr step_inputs "inputs" ≫= py_utils.to_list
      | S j => below ← or_raise IndexError
                          (StackStep.recorded_output st (Z.of_nat j));
               Ok [below]
      end = Ok (StackStep.inputs st_i)).
    { destruct i as [|j]; [done|].
      apply bind_Ok in Hin as (below & Hbelow%or_raise_Ok & Hin).
      by rewrite (recorded_output_prefix st_i st _ _ Hpre_i Hbelow). }
    rewrite Hin'. simpl. rewrite Hadd. simpl.
    unfold StackStep.sub_at. rewrite Hchild. simpl.
    rewrite Htheta, Hext, Hstate. simpl. by rewrite Hcall.
  - unfold StackStep.recorded_output. rewrite bool_decide_true by lia.
    eapply prefix_lookup_Some; [|exact Hpre_i].
    by replace (Z.of_nat i - StackStep.residual_stride self + 1)
      with (Z.of_nat i + 1 - StackStep.residual_stride self) by lia.
  - unfold StackStep.recorded_output. rewrite bool_decide_true by lia.
    eapply prefix_lookup_Some; [|exact Hpre].
    replace (Z.to_nat (Z.of_nat i + 1)) with (S i) by lia.
    rewrite lookup_app_r by lia. by rewrite Hlen, Nat.sub_diag.
  - done.
Qed.

(** The virtual output of the layer -1 is the concatenation of the inputs
    of the stack along the axis 1. *)
Lemma FProp_loop_virtual_output (n : nat) (st : StackStep.Locals) :
  StackStep.FProp_loop self theta external_inputs step_inputs padding state0 n
  = Ok st →
  ∃ inputs ts c,
    py_utils.getattr step_inputs "inputs" ≫= py_utils.to_list = Ok inputs ∧
    map_result as_tensor inputs = Ok ts ∧
    tf_concat ts 1 = Ok c ∧
    StackStep.recorded_output st (-1) = Some (NLeaf c).
Proof.
  intros Hloop.
  destruct (FProp_loop_prefix 0 n st) as (st0 & Hloop0 & Hpre & _);
    [lia | done |].
  apply FProp_loop_0 in Hloop0 as (additional & Hinit).
  apply FProp_init_Ok in Hinit as (inputs & ts & c & ? & ? & ? & _ & ->).
  exists inputs, ts, c. split; [done|]. split; [done|]. split; [done|].
  by eapply recorded_output_prefix.
Qed.
End StackStep_loop.

Section StackStep_properties.
Context `{TensorEngine}.

(** C6. In a StackStep with [residual_start >= 0], for every child index
    [i >= residual_start] the recorded output of the child [i] is its raw
    FProp output plus the recorded output at the index [i - residual_stride]
    (an index the stack has recorded: not below -1), where the virtual
    output at the index -1 is the concatenation of the input tensors of the
    stack along the feature axis. In particular with [residual_start = 0]
    and [residual_stride = 1], the output of the child 0 is its raw output
    plus the concatenated input, and that of a child [i >= 1] its raw output
    plus the output of the child [i - 1]. *)
Theorem StackStep_residual_output (self : StackStep.t)
    (theta external_inputs step_inputs padding state0 : Value)
    (st : StackStep.Locals) :
  StackStep.FProp_loop self theta external_inputs step_inputs padding state0
    (length (StackStep.sub self)) = Ok st →
  0 ≤ StackStep.residual_start self →
  (∀ i : nat,
     StackStep.residual_start self ≤ Z.of_nat i →
     (i < length (StackStep.sub self))%nat →
     -1 ≤ Z.of_nat i - StackStep.residual_stride self →
     ∃ raw below out,
       StackStep.raw_output self theta external_inputs step_inputs padding
         state0 st i = Ok (NLeaf raw) ∧
       StackStep.recorded_output st
         (Z.of_nat i - StackStep.residual_stride self) = Some (NLeaf below) ∧
       StackStep.recorded_output st (Z.of_nat i) = Some (NLeaf out) ∧
       tf_add raw below = Ok out) ∧
  (∃ inputs ts c,
     py_utils.getattr step_inputs "inputs" ≫= py_utils.to_list = Ok inputs ∧
     map_result as_tensor inputs = Ok ts ∧
     tf_concat ts 1 = Ok c ∧
     StackStep.recorded_output st (-1) = Some (NLeaf c)) ∧
  (StackStep.residual_start self = 0 → StackStep.residual_stride self = 1 →
   ∀ i : nat,
     (i < length (StackStep.sub self))%nat →
     ∃ raw below out,
       StackStep.raw_output self theta external_inputs step_inputs padding
         state0 st i = Ok (NLeaf raw) ∧
       StackStep.recorded_output st (Z.of_nat i - 1) = Some (NLeaf below) ∧
       StackStep.recorded_output st (Z.of_nat i) = Some (NLeaf out) ∧
       tf_add raw below = Ok out).
Proof.
  intros Hloop Hstart.
  assert (Hlayer : ∀ i : nat,
    StackStep.residual_start self ≤ Z.of_nat i →
    (i < length (StackStep.sub self))%nat →
    -1 ≤ Z.of_nat i - StackStep.residual_stride self →
    ∃ raw below out,
      StackStep.raw_output self theta external_inputs step_inputs padding
        state0 st i = Ok (NLeaf raw) ∧
      StackStep.recorded_output st
        (Z.of_nat i - StackStep.residual_stride self) = Some (NLeaf below) ∧
      StackStep.recorded_output st (Z.of_nat i) = Some (NLeaf out) ∧
      tf_add raw below = Ok out).
  { intros i Hi Hlt Hstride.
    by eapply FProp_loop_residual; [exact Hloop | | |]. }
  split; [exact Hlayer|]. split.
  - by eapply FProp_loop_virtual_output.
  - intros Hstart0 Hstride1 i Hlt.
    destruct (Hlayer i) as (raw & below & out & Hraw & Hbelow & Hout & Hadd);
      [lia | done | lia |].
    rewrite Hstride1 in Hbelow. by exists raw, below, out.
Qed.

(** The body of the loop of [FProp] with the residual connections off. *)
Lemma FProp_body_off (self : StackStep.t)
    (theta external_inputs padding state0 : Value) (additional : list Value)
    (child : Step.t) (i : nat) (st : StackStep.Locals) :
  StackStep.residual_start self < 0 →
  StackStep.sub self !! i = Some child →
  StackStep.FProp_body self theta external_inputs padding state0 additional st i
  = (theta_i ← StackStep.field_at theta "sub" i;
     external_i ← StackStep.field_at external_inputs "sub" i;
     state0_i ← StackStep.field_at state0 "sub" i;
     '(sub_output, state1_i) ←
       Step.FProp child theta_i external_i
         (NMap {[ "inputs" := NList (StackStep.inputs st ++ additional) ]})
         padding state0_i;
     raw ← py_utils.getattr sub_output "output";
     Ok {| StackStep.state1_sub := StackStep.state1_sub st ++ [state1_i];
           StackStep.inputs := [raw];
           StackStep.residual_inputs := StackStep.residual_inputs st ++ [raw];
           StackStep.output := Some raw |}).
Proof.
  intros Hoff Hchild. unfold StackStep.FProp_body, StackStep.sub_at.
  rewrite Hchild. simpl.
  rewrite (bool_decide_false (0 ≤ _)) by lia. by rewrite andb_false_r.
Qed.

(** With the residual connections off, the loop of [FProp] over the children
    from the [i]-th on is the chain of these children. *)
Lemma FProp_loop_chain (self : StackStep.t)
    (theta external_inputs padding state0 : Value) (additional : list Value)
    (children : list Step.t) (i : nat) (st : StackStep.Locals) :
  StackStep.residual_start self < 0 →
  drop i (StackStep.sub self) = children →
  (λ st', (StackStep.output st', StackStep.state1_sub st'))
    <$> for_each
          (StackStep.FProp_body self theta external_inputs padding state0
             additional)
          (seq i (length children)) st
  = (λ '(top, states), (top, StackStep.state1_sub st ++ states))
      <$> StackStep.chain theta external_inputs padding state0 additional
            children i (StackStep.inputs st) (StackStep.output st).
Proof.
  intros Hoff. revert i st.
  induction children as [|child children IH]; intros i st Hdrop; simpl.
  - by rewrite app_nil_r.
  - assert (Hchild : StackStep.sub self !! i = Some child).
    { rewrite <- (Nat.add_0_r i), <- lookup_drop. by rewrite Hdrop. }
    assert (Hdrop' : drop (S i) (StackStep.sub self) = children).
    { by rewrite (drop_S _ _ _ Hchild) in Hdrop; injection Hdrop. }
    rewrite (FProp_body_off _ _ _ _ _ _ child i st Hoff Hchild).
    destruct (StackStep.field_at theta "sub" i) as [theta_i|]; simpl; [|done].
    destruct (StackStep.field_at external_inputs "sub" i) as [external_i|];
      simpl; [|done].
    destruct (StackStep.field_at state0 "sub" i) as [state0_i|]; simpl; [|done].
    destruct (Step.FProp child theta_i external_i _ padding state0_i)
      as [[sub_output state1_i]|]; simpl; [|done].
    destruct (py_utils.getattr sub_output "output") as [raw|]; simpl; [|done].
    rewrite (IH (S i) _ Hdrop'). simpl.
    destruct (StackStep.chain _ _ _ _ _ _ _ _ _) as [[top states]|]; simpl;
      [|done].
    by rewrite <- app_assoc.
Qed.

(** C7. A StackStep with [residual_start = -1] returns from [FProp] exactly
    what the same stack returns with the residual additive term removed
    (each child's raw output passed unmodified to the next child, the top
    child's output returned), for every configuration and every input whose
    tensors the engine concatenates ([FProp] concatenates the inputs of the
    stack before its loop, with or without residual connections). *)
Theorem StackStep_residual_off (self : StackStep.t)
    (theta external_inputs step_inputs padding state0 : Value) :
  StackStep.residual_start self = -1 →
  (∃ inputs ts c,
     py_utils.getattr step_inputs "inputs" ≫= py_utils.to_list = Ok inputs ∧
     map_result as_tensor inputs = Ok ts ∧
     tf_concat ts 1 = Ok c) →
  StackStep.FProp self theta external_inputs step_inputs padding state0
  = StackStep.FProp_without_residual self theta external_inputs step_inputs
      padding state0.
Proof.
  intros Hoff (inputs & ts & c & Hinputs & Hts & Hc).
  unfold StackStep.FProp, StackStep.FProp_without_residual,
    StackStep.FProp_loop, StackStep.FProp_init.
  rewrite Hinputs. simpl. rewrite Hts. simpl. rewrite Hc. simpl.
  destruct (if py_utils.contains step_inputs "context" then _ else _)
    as [additional|]; simpl; [|done].
  pose proof (FProp_loop_chain self theta external_inputs padding state0
                additional (StackStep.sub self) 0
                {| StackStep.state1_sub := []; StackStep.inputs := inputs;
                   StackStep.residual_inputs := [NLeaf c];
                   StackStep.output := None |}) as Hchain.
  simpl in Hchain. specialize (Hchain ltac:(lia) eq_refl).
  destruct (for_each _ _ _) as [st|e];
    destruct (StackStep.chain _ _ _ _ _ _ _ _ _) as [[top states]|e'];
    simpl in *; try done.
  - injection Hchain as -> ->. done.
  - by injection Hchain as ->.
Qed.
End StackStep_properties.

Lemma StackStep_residual_output_witness :
  let st : @StackStep.Locals matrix_engine :=
    {| StackStep.state1_sub := [py_utils.NestedMap; py_utils.NestedMap];
       StackStep.inputs := [leaf [[12; 120]]];
       StackStep.residual_inputs :=
         [leaf [[1; 10]]; leaf [[3; 30]]; leaf [[12; 120]]];
       StackStep.output := Some (leaf [[12; 120]]) |} in
  StackStep.FProp_loop stack_residual stack_theta stack_external stack_inputs
    NNone stack_state0 (length (StackStep.sub stack_residual)) = Ok st ∧
  0 ≤ StackStep.residual_start stack_residual ∧
  (StackStep.residual_start stack_residual ≤ Z.of_nat 1 ∧
   (1 < length (StackStep.sub stack_residual))%nat ∧
   -1 ≤ Z.of_nat 1 - StackStep.residual_stride stack_residual) ∧
  ∃ raw below out,
    StackStep.raw_output stack_residual stack_theta stack_external
      stack_inputs NNone stack_state0 st 1 = Ok (NLeaf raw) ∧
    StackStep.recorded_output st
      (Z.of_nat 1 - StackStep.residual_stride stack_residual)
    = Some (NLeaf below) ∧
    StackStep.recorded_output st (Z.of_nat 1) = Some (NLeaf out) ∧
    @tf_add matrix_engine raw below = Ok out.
Proof.
  intros st.
  assert (H1 : StackStep.FProp_loop stack_residual stack_theta stack_external
                 stack_inputs NNone stack_state0
                 (length (StackStep.sub stack_residual)) = Ok st)
    by (vm_compute; reflexivity).
  assert (H2 : 0 ≤ StackStep.residual_start stack_residual) by (simpl; lia).
  assert (H3 : StackStep.residual_start stack_residual ≤ Z.of_nat 1)
    by (simpl; lia).
  assert (H4 : (1 < length (StackStep.sub stack_residual))%nat)
    by (simpl; lia).
  assert (H5 : -1 ≤ Z.of_nat 1 - StackStep.residual_stride stack_residual)
    by (simpl; lia).
  split; [exact H1|]. split; [exact H2|]. split; [by repeat split|].
  exact (proj1 (@StackStep_residual_output matrix_engine stack_residual
                  stack_theta stack_external stack_inputs NNone stack_state0
                  st H1 H2) 1%nat H3 H4 H5).
Defined.

Lemma StackStep_residual_off_witness :
  StackStep.residual_start stack_plain = -1 ∧
  (∃ inputs ts c,
     py_utils.getattr stack_inputs "inputs" ≫= py_utils.to_list = Ok inputs ∧
     map_result (@as_tensor matrix_engine) inputs = Ok ts ∧
     @tf_concat matrix_engine ts 1 = Ok c) ∧
  StackStep.FProp stack_plain stack_theta stack_external stack_inputs NNone
    stack_state0
  = StackStep.FProp_without_residual stack_plain stack_theta stack_external
      stack_inputs NNone stack_state0.
Proof.
  assert (H1 : StackStep.residual_start stack_plain = -1) by reflexivity.
  assert (H2 : ∃ inputs ts c,
     py_utils.getattr stack_inputs "inputs" ≫= py_utils.to_list = Ok inputs ∧
     map_result (@as_tensor matrix_engine) inputs = Ok ts ∧
     @tf_concat matrix_engine ts 1 = Ok c).
  { exists [leaf [[1; 10]]], [[[1; 10]] : @Tensor matrix_engine], [[1; 10]].
    split; [reflexivity|]. split; reflexivity. }
  split; [exact H1|]. split; [exact H2|].
  exact (@StackStep_residual_off matrix_engine stack_plain stack_theta
           stack_external stack_inputs NNone stack_state0 H1 H2).
Defined.

(** The two stacks of the examples, run: without residuals the output is
    3 * (2 * x); with the residuals of every layer it is
    3 * (2 * x + x) + (2 * x + x). *)
Example stack_plain_FProp :
  StackStep.FProp stack_plain stack_theta stack_external stack_inputs NNone
    stack_state0
  = Ok (NMap {[ "output" := leaf [[6; 60]] ]}, stack_state0).
Proof. vm_compute. reflexivity. Qed.

Example stack_residual_FProp :
  StackStep.FProp stack_residual stack_theta stack_external stack_inputs NNone
    stack_state0
  = Ok (NMap {[ "output" := leaf [[12; 120]] ]}, stack_state0).
Proof. vm_compute. reflexivity. Qed.



(** ** StackStep: the methods that collect one result for each child *)

(** A loop that appends one result for each index collects the results in
    order, and returns exactly when every one of them is there. *)
Lemma for_each_collect {Y} (body : list Y → nat → result (list Y))
    (f : nat → result Y) (n : nat) (l : list Y) :
  (∀ acc i, body acc i = (y ← f i; Ok (acc ++ [y]))) →
  for_each body (seq 0 n) [] = Ok l ↔
  length l = n ∧ ∀ i y, l !! i = Some y → f i = Ok y.
Proof.
  intros Hbody. revert l. induction n as [|n IH]; intros l.
  - simpl. split.
    + intros [= <-]. split; [done|]. intros i y. by rewrite lookup_nil.
    + intros [Hlen _]. by apply nil_length_inv in Hlen as ->.
  - rewrite seq_S, for_each_snoc. simpl. split.
    + intros (l' & Hl' & Hn)%bind_Ok. rewrite Hbody in Hn.
      apply bind_Ok in Hn as (y & Hy & [= <-]).
      apply IH in Hl' as [Hlen Hl']. split.
      * rewrite length_app. simpl. lia.
      * intros i z Hi. destruct (decide (i < n)%nat) as [Hlt|Hge].
        -- rewrite lookup_app_l in Hi by lia. by apply Hl'.
        -- rewrite lookup_app_r in Hi by lia.
           destruct (i - length l')%nat as [|k] eqn:Hk; simpl in Hi; [|done].
           injection Hi as <-. by replace i with n by lia.
    + intros [Hlen Hl].
      destruct l as [|z l0 _] using rev_ind; [done|].
      rewrite length_app in Hlen. simpl in Hlen.
      assert (Hl0 : for_each body (seq 0 n) [] = Ok l0).
      { apply IH. split; [lia|]. intros i y Hi. apply Hl.
        by apply lookup_app_l_Some. }
      rewrite Hl0. simpl. rewrite Hbody.
      rewrite (Hl n z); [done|].
      rewrite lookup_app_r by lia. by replace (n - length l0)%nat with 0%nat by lia.
Qed.

Section StackStep_collect.
Context `{TensorEngine}.

(** X1. [StackStep.PrepareExternalInputs] returns exactly when every child's
    [PrepareExternalInputs] returns on its entry of [theta.sub] and on the
    external inputs of the stack themselves; the result is
    [NestedMap(sub=[...])] with one entry for each child, in order. *)
Theorem StackStep_PrepareExternalInputs_spec (self : StackStep.t)
    (theta external_inputs packed : Value) :
  StackStep.PrepareExternalInputs self theta external_inputs = Ok packed ↔
  ∃ l, packed = NMap {[ "sub" := NList l ]} ∧
       length l = length (StackStep.sub self) ∧
       ∀ i p, l !! i = Some p →
         ∃ child theta_i,
           StackStep.sub self !! i = Some child ∧
           StackStep.field_at theta "sub" i = Ok theta_i ∧
           Step.PrepareExternalInputs child theta_i external_inputs = Ok p.
Proof.
  unfold StackStep.PrepareExternalInputs.
  pose (f := λ i : nat,
    child ← StackStep.sub_at self i;
    theta_i ← StackStep.field_at theta "sub" i;
    Step.PrepareExternalInputs child theta_i external_inputs).
  assert (Hbody : ∀ (acc : list Value) (i : nat),
    (child ← StackStep.sub_at self i;
     theta_i ← StackStep.field_at theta "sub" i;
     p ← Step.PrepareExternalInputs child theta_i external_inputs;
     Ok (acc ++ [p])) = (y ← f i; Ok (acc ++ [y]))).
  { intros acc i. unfold f.
    destruct (StackStep.sub_at self i) as [child|]; simpl; [|done].
    by destruct (StackStep.field_at theta "sub" i). }
  split.
  - intros (l & Hl & [= <-])%bind_Ok.
    apply (for_each_collect _ f _ _ Hbody) in Hl as [Hlen Hl].
    exists l. split; [done|]. split; [done|]. intros i p Hi.
    specialize (Hl i p Hi). unfold f in Hl.
    apply bind_Ok in Hl as (child & Hchild%or_raise_Ok & Hl).
    apply bind_Ok in Hl as (theta_i & Htheta & Hl). by exists child, theta_i.
  - intros (l & -> & Hlen & Hl).
    assert (Hloop : for_each
      (λ (packed_sub : list Value) (i : nat),
         child ← StackStep.sub_at self i;
         theta_i ← StackStep.field_at theta "sub" i;
         p ← Step.PrepareExternalInputs child theta_i external_inputs;
         Ok (packed_sub ++ [p]))
      (seq 0 (length (StackStep.sub self))) [] = Ok l).
    { apply (for_each_collect _ f _ _ Hbody). split; [done|].
      intros i p Hi. destruct (Hl i p Hi) as (child & theta_i & Hc & Ht & Hp).
      unfold f, StackStep.sub_at. rewrite Hc. simpl. by rewrite Ht. }
    by rewrite Hloop.
Qed.

(** X2. [StackStep.ZeroState] returns exactly when every child's [ZeroState]
    returns; each child is given its entry of [theta.sub], the batch size,
    and the external inputs of the whole stack (not its own entry of
    [external_inputs.sub]). The result is [NestedMap(sub=[...])] with one
    state for each child, in order. *)
Theorem StackStep_ZeroState_spec (self : StackStep.t)
    (theta external_inputs : Value) (batch_size : Z) (state : Value) :
  StackStep.ZeroState self theta external_inputs batch_size = Ok state ↔
  ∃ l, state = NMap {[ "sub" := NList l ]} ∧
       length l = length (StackStep.sub self) ∧
       ∀ i s, l !! i = Some s →
         ∃ child theta_i,
           StackStep.sub self !! i = Some child ∧
           StackStep.field_at theta "sub" i = Ok theta_i ∧
           Step.ZeroState child theta_i external_inputs batch_size = Ok s.
Proof.
  unfold StackStep.ZeroState.
  pose (f := λ i : nat,
    child ← StackStep.sub_at self i;
    theta_i ← StackStep.field_at theta "sub" i;
    Step.ZeroState child theta_i external_inputs batch_size).
  assert (Hbody : ∀ (acc : list Value) (i : nat),
    (child ← StackStep.sub_at self i;
     theta_i ← StackStep.field_at theta "sub" i;
     s ← Step.ZeroState child theta_i external_inputs batch_size;
     Ok (acc ++ [s])) = (y ← f i; Ok (acc ++ [y]))).
  { intros acc i. unfold f.
    destruct (StackStep.sub_at self i) as [child|]; simpl; [|done].
    by destruct (StackStep.field_at theta "sub" i). }
  split.
  - intros (l & Hl & [= <-])%bind_Ok.
    apply (for_each_collect _ f _ _ Hbody) in Hl as [Hlen Hl].
    exists l. split; [done|]. split; [done|]. intros i s Hi.
    specialize (Hl i s Hi). unfold f in Hl.
    apply bind_Ok in Hl as (child & Hchild%or_raise_Ok & Hl).
    apply bind_Ok in Hl as (theta_i & Htheta & Hl). by exists child, theta_i.
  - intros (l & -> & Hlen & Hl).
    assert (Hloop : for_each
      (λ (state_sub : list Value) (i : nat),
         child ← StackStep.sub_at self i;
         theta_i ← StackStep.field_at theta "sub" i;
         s ← Step.ZeroState child theta_i external_inputs batch_size;
         Ok (state_sub ++ [s]))
      (seq 0 (length (StackStep.sub self))) [] = Ok l).
    { apply (for_each_collect _ f _ _ Hbody). split; [done|].
      intros i s Hi. destruct (Hl i s Hi) as (child & theta_i & Hc & Ht & Hs).
      unfold f, StackStep.sub_at. rewrite Hc. simpl. by rewrite Ht. }
    by rewrite Hloop.
Qed.

(** X3. A [theta] with fewer entries in [theta.sub] than the stack has children
    makes [PrepareExternalInputs] and [ZeroState] fail. *)
Theorem StackStep_short_theta_fails (self : StackStep.t)
    (theta_sub : list Value) (external_inputs : Value) (batch_size : Z) :
  (length theta_sub < length (StackStep.sub self))%nat →
  is_Err (StackStep.PrepareExternalInputs self
            (NMap {[ "sub" := NList theta_sub ]}) external_inputs) ∧
  is_Err (StackStep.ZeroState self
            (NMap {[ "sub" := NList theta_sub ]}) external_inputs batch_size).
Proof.
  intros Hshort.
  assert (Hin : length theta_sub ∈ seq 0 (length (StackStep.sub self)))
    by (apply elem_of_seq; lia).
  assert (Hfield :
    StackStep.field_at (NMap {[ "sub" := NList theta_sub ]} : Value) "sub"
      (length theta_sub) = Err IndexError).
  { unfold StackStep.field_at, py_utils.getattr.
    rewrite lookup_singleton_eq. cbn [or_raise mbind result_bind].
    unfold py_utils.getindex, py_index.
    rewrite bool_decide_false by lia. by rewrite bool_decide_false by lia. }
  split.
  - unfold StackStep.PrepareExternalInputs.
    destruct (for_each_fails
      (λ (packed_sub : list Value) (i : nat),
         child ← StackStep.sub_at self i;
         theta_i ← StackStep.field_at (NMap {[ "sub" := NList theta_sub ]}) "sub" i;
         p ← Step.PrepareExternalInputs child theta_i external_inputs;
         Ok (packed_sub ++ [p]))
      (seq 0 (length (StackStep.sub self))) (length theta_sub) [] Hin)
      as [e He].
    + intros acc.
      destruct (StackStep.sub_at self (length theta_sub)) as [child|e];
        cbn [mbind result_bind]; [|by exists e].
      rewrite Hfield. by exists IndexError.
    + rewrite He. by exists e.
  - unfold StackStep.ZeroState.
    destruct (for_each_fails
      (λ (state_sub : list Value) (i : nat),
         child ← StackStep.sub_at self i;
         theta_i ← StackStep.field_at (NMap {[ "sub" := NList theta_sub ]}) "sub" i;
         s ← Step.ZeroState child theta_i external_inputs batch_size;
         Ok (state_sub ++ [s]))
      (seq 0 (length (StackStep.sub self))) (length theta_sub) [] Hin)
      as [e He].
    + intros acc.
      destruct (StackStep.sub_at self (length theta_sub)) as [child|e];
        cbn [mbind result_bind]; [|by exists e].
      rewrite Hfield. by exists IndexError.
    + rewrite He. by exists e.
Qed.
End StackStep_collect.

(** ** StackStep.FProp: edge cases and what it returns *)

Section StackStep_FProp_more.
Context `{TensorEngine}.

(** X4. A stack without children never returns from [FProp]: after the loop,
    [output] is unbound. When the inputs of the stack are well formed, the
    failure is this UnboundLocalError. *)
Theorem StackStep_FProp_no_children (self : StackStep.t)
    (theta external_inputs step_inputs padding state0 : Value) :
  StackStep.sub self = [] →
  is_Err (StackStep.FProp self theta external_inputs step_inputs padding state0) ∧
  (is_Ok (StackStep.FProp_init step_inputs) →
   StackStep.FProp self theta external_inputs step_inputs padding state0
   = Err UnboundLocalError).
Proof.
  intros Hsub. unfold StackStep.FProp, StackStep.FProp_loop. rewrite Hsub. simpl.
  destruct (StackStep.FProp_init step_inputs) as [[st additional]|e] eqn:Hinit.
  - apply FProp_init_Ok in Hinit as (inputs & ts & c & _ & _ & _ & _ & ->).
    simpl. split; [by exists UnboundLocalError | done].
  - simpl. split; [by exists e | by intros [? ?]].
Qed.

(** What the assertion of the residual connection guards against: with
    [residual_stride <= 0] the lookback index is not below the number of
    recorded outputs, and the assertion fails. *)
Lemma add_residual_nonpositive_stride (self : StackStep.t) (i : nat)
    (residual_inputs : list Value) (output : Value) :
  length residual_inputs = S i →
  StackStep.residual_stride self ≤ 0 →
  StackStep.add_residual self i residual_inputs output = Err AssertionError.
Proof.
  intros Hlen Hstride. unfold StackStep.add_residual.
  rewrite bool_decide_false by lia. done.
Qed.

(** X5. A stack whose residual connections are on ([0 <= residual_start], a
    layer of that index exists) with [residual_stride <= 0] never returns
    from [FProp]: at the layer [residual_start], if not before, the
    assertion fails. *)
Theorem StackStep_nonpositive_stride_fails (self : StackStep.t)
    (theta external_inputs step_inputs padding state0 : Value) :
  0 ≤ StackStep.residual_start self < Z.of_nat (length (StackStep.sub self)) →
  StackStep.residual_stride self ≤ 0 →
  is_Err (StackStep.FProp self theta external_inputs step_inputs padding state0).
Proof.
  intros Hstart Hstride.
  destruct (StackStep.FProp self theta external_inputs step_inputs padding
              state0) as [[output state1]|e] eqn:HF; [|by exists e].
  exfalso. unfold StackStep.FProp in HF.
  apply bind_Ok in HF as (st & Hloop & _).
  set (i := Z.to_nat (StackStep.residual_start self)).
  destruct (FProp_loop_prefix self theta external_inputs step_inputs padding
              state0 (S i) (length (StackStep.sub self)) st)
    as (st' & Hloop' & _); [lia | done |].
  apply FProp_loop_S_Ok in Hloop'
    as (st0 & additional & st_i & _ & Hloop_i & Hbody).
  destruct (FProp_loop_lengths _ _ _ _ _ _ _ _ Hloop_i) as [Hlen _].
  apply FProp_body_Ok in Hbody
    as (child & theta_i & external_i & state0_i & sub_output & state1_i & raw
        & out & _ & _ & _ & _ & _ & _ & Hres & _).
  rewrite !bool_decide_true in Hres by lia. simpl in Hres.
  by rewrite add_residual_nonpositive_stride in Hres.
Qed.

(** X6. Every negative [residual_start] turns the residual connections off:
    [FProp] then returns what the chain of the children returns, each child
    on the raw output of the child below, whatever [residual_stride] is
    (for inputs whose tensors the engine concatenates: [FProp] concatenates
    them before its loop in any case). *)
Theorem StackStep_negative_start_off (self : StackStep.t)
    (theta external_inputs step_inputs padding state0 : Value) :
  StackStep.residual_start self < 0 →
  (∃ inputs ts c,
     py_utils.getattr step_inputs "inputs" ≫= py_utils.to_list = Ok inputs ∧
     map_result as_tensor inputs = Ok ts ∧
     tf_concat ts 1 = Ok c) →
  StackStep.FProp self theta external_inputs step_inputs padding state0
  = StackStep.FProp_without_residual self theta external_inputs step_inputs
      padding state0.
Proof.
  intros Hoff (inputs & ts & c & Hinputs & Hts & Hc).
  unfold StackStep.FProp, StackStep.FProp_without_residual,
    StackStep.FProp_loop, StackStep.FProp_init.
  rewrite Hinputs. simpl. rewrite Hts. simpl. rewrite Hc. simpl.
  destruct (if py_utils.contains step_inputs "context" then _ else _)
    as [additional|]; simpl; [|done].
  pose proof (FProp_loop_chain self theta external_inputs padding state0
                additional (StackStep.sub self) 0
                {| StackStep.state1_sub := []; StackStep.inputs := inputs;
                   StackStep.residual_inputs := [NLeaf c];
                   StackStep.output := None |} Hoff eq_refl) as Hchain.
  simpl in Hchain.
  destruct (for_each _ _ _) as [st|e];
    destruct (StackStep.chain _ _ _ _ _ _ _ _ _) as [[top states]|e'];
    simpl in *; try done.
  - injection Hchain as -> ->. done.
  - by injection Hchain as ->.
Qed.

(** When the concatenation of the inputs of the stack fails, [FProp] fails
    with the engine's error, also with the residual connections off. *)
Theorem StackStep_FProp_concat_error (self : StackStep.t)
    (theta external_inputs step_inputs padding state0 : Value)
    (inputs : list Value) (ts : list Tensor) (e : PyError) :
  py_utils.getattr step_inputs "inputs" ≫= py_utils.to_list = Ok inputs →
  map_result as_tensor inputs = Ok ts →
  tf_concat ts 1 = Err e →
  StackStep.FProp self theta external_inputs step_inputs padding state0 = Err e.
Proof.
  intros Hinputs Hts Hc.
  unfold StackStep.FProp, StackStep.FProp_loop, StackStep.FProp_init.
  rewrite Hinputs. simpl. rewrite Hts. simpl. by rewrite Hc.
Qed.
End StackStep_FProp_more.

(** ** The shape of the state of a stack *)

Lemma shape_NMap {A} (m : gmap string (Nested A)) :
  shape (NMap m) = NMap (shape <$> m).
Proof. reflexivity. Qed.

Lemma shape_NList {A} (l : list (Nested A)) :
  shape (NList l) = NList (shape <$> l).
Proof. reflexivity. Qed.

Section StackStep_state.
Context `{TensorEngine}.

(** The states that the loop of [StackStep.FProp] has collected: one for
    each child, returned by its [FProp] on its entries of [theta.sub],
    [external_inputs.sub] and [state0.sub], under the padding of the
    stack. *)
Lemma StackStep_FProp_loop_states (self : StackStep.t)
    (theta external_inputs step_inputs padding state0 : Value)
    (n i : nat) (st : StackStep.Locals) :
  StackStep.FProp_loop self theta external_inputs step_inputs padding state0 n
  = Ok st →
  (i < n)%nat →
  ∃ child theta_i external_i sub_inputs state0_i sub_output state1_i,
    StackStep.sub self !! i = Some child ∧
    StackStep.field_at theta "sub" i = Ok theta_i ∧
    StackStep.field_at external_inputs "sub" i = Ok external_i ∧
    StackStep.field_at state0 "sub" i = Ok state0_i ∧
    Step.FProp child theta_i external_i sub_inputs padding state0_i
    = Ok (sub_output, state1_i) ∧
    StackStep.state1_sub st !! i = Some state1_i.
Proof.
  intros Hloop Hi.
  destruct (FProp_loop_prefix self theta external_inputs step_inputs padding
              state0 (S i) n st) as (st' & Hloop' & _ & Hpre); [lia | done |].
  apply FProp_loop_S_Ok in Hloop'
    as (st0 & additional & st_i & _ & Hloop_i & Hbody).
  destruct (FProp_loop_lengths _ _ _ _ _ _ _ _ Hloop_i) as [_ Hlen].
  apply FProp_body_Ok in Hbody
    as (child & theta_i & external_i & state0_i & sub_output & state1_i & raw
        & out & Hchild & Htheta & Hext & Hstate & Hcall & _ & _ & ->).
  exists child, theta_i, external_i,
    (NMap {[ "inputs" := NList (StackStep.inputs st_i ++ additional) ]}),
    state0_i, sub_output, state1_i.
  split; [exact Hchild|]. split; [exact Htheta|]. split; [exact Hext|].
  split; [exact Hstate|]. split; [exact Hcall|].
  eapply prefix_lookup_Some; [|exact Hpre].
  cbn [StackStep.state1_sub].
  rewrite lookup_app_r by lia. by rewrite Hlen, Nat.sub_diag.
Qed.

(** X7. What [StackStep.FProp] returns: [NestedMap(output=...)], and a state
    [NestedMap(sub=[...])] with one entry for each child, in order: the state
    that the child's [FProp] returned, called on its own entries of
    [theta.sub], [external_inputs.sub] and [state0.sub] and on the padding
    of the stack. *)
Theorem StackStep_FProp_returns (self : StackStep.t)
    (theta external_inputs step_inputs padding state0 output state1 : Value) :
  StackStep.FProp self theta external_inputs step_inputs padding state0
  = Ok (output, state1) →
  ∃ out states1,
    output = NMap {[ "output" := out ]} ∧
    state1 = NMap {[ "sub" := NList states1 ]} ∧
    length states1 = length (StackStep.sub self) ∧
    ∀ i state1_i, states1 !! i = Some state1_i →
      ∃ child theta_i external_i sub_inputs state0_i sub_output,
        StackStep.sub self !! i = Some child ∧
        StackStep.field_at theta "sub" i = Ok theta_i ∧
        StackStep.field_at external_inputs "sub" i = Ok external_i ∧
        StackStep.field_at state0 "sub" i = Ok state0_i ∧
        Step.FProp child theta_i external_i sub_inputs padding state0_i
        = Ok (sub_output, state1_i).
Proof.
  unfold StackStep.FProp. intros HF.
  apply bind_Ok in HF as (st & Hloop & HF).
  apply bind_Ok in HF as (out & _ & [= <- <-]).
  destruct (FProp_loop_lengths _ _ _ _ _ _ _ _ Hloop) as [_ Hlen].
  exists out, (StackStep.state1_sub st).
  split; [done|]. split; [done|]. split; [done|].
  intros i state1_i Hi.
  assert (Hlt : (i < length (StackStep.sub self))%nat)
    by (rewrite <- Hlen; by eapply lookup_lt_Some).
  destruct (StackStep_FProp_loop_states _ _ _ _ _ _ _ i _ Hloop Hlt)
    as (child & theta_i & external_i & sub_inputs & state0_i & sub_output
        & state1_i' & Hchild & Htheta & Hext & Hstate & Hcall & Hi').
  rewrite Hi in Hi'. injection Hi' as <-.
  by exists child, theta_i, external_i, sub_inputs, state0_i, sub_output.
Qed.

(** X8. [state0] and [state1] of [StackStep.FProp] have the same structure, for
    a state of the stack (one entry of [state0.sub] for each child) and
    children that keep the structure of their own states. *)
Theorem StackStep_FProp_state_shape (self : StackStep.t)
    (theta external_inputs step_inputs padding : Value)
    (states0 : list Value) (output state1 : Value) :
  length states0 = length (StackStep.sub self) →
  (∀ i child state0_i,
     StackStep.sub self !! i = Some child → states0 !! i = Some state0_i →
     preserves_state_shape child state0_i) →
  StackStep.FProp self theta external_inputs step_inputs padding
    (NMap {[ "sub" := NList states0 ]}) = Ok (output, state1) →
  shape state1 = shape (NMap {[ "sub" := NList states0 ]} : Value).
Proof.
  intros Hlen Hchildren HF. unfold StackStep.FProp in HF.
  apply bind_Ok in HF as (st & Hloop & HF).
  apply bind_Ok in HF as (out & _ & HF). injection HF as _ <-.
  destruct (FProp_loop_lengths _ _ _ _ _ _ _ _ Hloop) as [_ Hlen1].
  rewrite !shape_NMap, !map_fmap_singleton, !shape_NList. do 3 f_equal.
  apply list_eq. intros i. rewrite !list_lookup_fmap.
  destruct (decide (i < length (StackStep.sub self))%nat) as [Hi|Hi].
  - destruct (StackStep_FProp_loop_states _ _ _ _ _ _ _ i _ Hloop Hi)
      as (child & theta_i & external_i & sub_inputs & state0_i & sub_output
          & state1_i & Hchild & _ & _ & Hstate & Hcall & ->).
    unfold StackStep.field_at, py_utils.getattr in Hstate.
    rewrite lookup_singleton_eq in Hstate.
    apply py_index_nonneg in Hstate; [|lia].
    rewrite Nat2Z.id in Hstate. rewrite Hstate.
    cbn [fmap option_fmap option_map]. f_equal.
    by eapply (Hchildren i child state0_i Hchild Hstate).
  - rewrite (lookup_ge_None_2 (StackStep.state1_sub st) i) by lia.
    by rewrite (lookup_ge_None_2 states0 i) by lia.
Qed.
End StackStep_state.

(** ** GraphStep: the loop of FProp *)

Section GraphStep_loop.
Context `{TensorEngine}.
Context (theta external_inputs padding state0 : Value).

(** The arguments of the call of a sub-step, when they are there. *)
Lemma FProp_call_Ok (graph_tensors : gmap string Value) (seq : GraphStep.Seq)
    (c : GraphStep.Call) :
  GraphStep.FProp_call theta external_inputs padding state0 graph_tensors seq
  = Ok c →
  ∃ theta_n external input_args state0_n,
    py_utils.getitem theta (GraphStep.name seq) = Ok theta_n ∧
    match GraphStep.external_signature seq with
    | Some _ => py_utils.getitem external_inputs (GraphStep.name seq)
    | None => Ok NNone
    end = Ok external ∧
    GraphStep.pack graph_tensors
      (builder_layers.inputs (GraphStep.signature seq)) = Ok input_args ∧
    py_utils.getitem state0 (GraphStep.name seq) = Ok state0_n ∧
    c = GraphStep.mkCall theta_n external input_args padding state0_n.
Proof.
  unfold GraphStep.FProp_call. intros HF.
  apply bind_Ok in HF as (external & Hext & HF).
  apply bind_Ok in HF as (input_args & Hargs & HF).
  apply bind_Ok in HF as (theta_n & Htheta & HF).
  apply bind_Ok in HF as (state0_n & Hstate & HF).
  injection HF as <-.
  exists theta_n, external, input_args, state0_n.
  exact (conj Htheta (conj Hext (conj Hargs (conj Hstate eq_refl)))).
Qed.

(** What one iteration of the loop of [FProp] does, when it returns. *)
Lemma GraphStep_FProp_body_Ok (st st' : GraphStep.Locals) (seq : GraphStep.Seq) :
  GraphStep.FProp_body theta external_inputs padding state0 st seq = Ok st' →
  ∃ c out seq_state1 o graph_tensors,
    GraphStep.FProp_call theta external_inputs padding state0
      (GraphStep.graph_tensors st) seq = Ok c ∧
    GraphStep.invoke (GraphStep.step seq) c = Ok (out, seq_state1) ∧
    builder_layers.outputs (GraphStep.signature seq) !! 0%nat = Some o ∧
    builder_layers.StoreTensor (GraphStep.graph_tensors st) o out
    = Ok graph_tensors ∧
    st' = {| GraphStep.graph_tensors := graph_tensors;
             GraphStep.state1 :=
               <[GraphStep.name seq := seq_state1]> (GraphStep.state1 st);
             GraphStep.vlog := GraphStep.vlog st ++ [GraphStep.name seq] |}.
Proof.
  unfold GraphStep.FProp_body. intros HF.
  apply bind_Ok in HF as (c & Hc & HF).
  apply bind_Ok in HF as ([out seq_state1] & Hcall & HF).
  apply bind_Ok in HF as (o & Ho & HF).
  apply bind_Ok in HF as (graph_tensors & Hstore & HF).
  injection HF as <-.
  apply py_index_nonneg in Ho; [|lia].
  exists c, out, seq_state1, o, graph_tensors.
  exact (conj Hc (conj Hcall (conj Ho (conj Hstore eq_refl)))).
Qed.

Lemma StoreTensor_Ok (gt gt' : gmap string Value) (name : string) (v : Value) :
  builder_layers.StoreTensor gt name v = Ok gt' ↔
  gt !! name = None ∧ gt' = <[name := v]> gt.
Proof.
  unfold builder_layers.StoreTensor. destruct (gt !! name) eqn:Hn.
  - split; [intros [=] | intros [[=] _]].
  - split; [intros [= <-]; by split | intros [_ ->]; reflexivity].
Qed.

(** The variables of [FProp] when its loop starts: the registry holds the
    two top-level inputs, no sub-step has run. *)
Lemma GraphStep_FProp_init_Ok (step_inputs : Value) :
  GraphStep.FProp_init external_inputs step_inputs
  = Ok {| GraphStep.graph_tensors :=
            <["step_inputs" := step_inputs]>
              (<["external_inputs" := external_inputs]> ∅);
          GraphStep.state1 := ∅; GraphStep.vlog := [] |}.
Proof.
  unfold GraphStep.FProp_init, builder_layers.StoreTensor,
    builder_layers.GraphTensors.
  rewrite lookup_empty. cbn [mbind result_bind].
  rewrite lookup_insert_ne by (intros [=]). rewrite lookup_empty.
  reflexivity.
Qed.
End GraphStep_loop.

(** A loop whose body returns at every element, whatever the state,
    returns. *)
Lemma for_each_returns {S X} (body : S → X → result S) (l : list X) (st : S) :
  (∀ x st', x ∈ l → is_Ok (body st' x)) → is_Ok (for_each body l st).
Proof.
  revert st. induction l as [|x l IH]; intros st Hbody; simpl.
  - by exists st.
  - destruct (Hbody x st) as [st' ->]; [by left|]. simpl.
    apply IH. intros y st'' Hy. apply Hbody. by right.
Qed.

Section GraphStep_FProp_properties.
Context `{TensorEngine}.

(** X9. Declaration order is execution order: when the loop of [FProp] returns,
    the sub-steps have been called once each, in the order of [_seq] (the
    log of the calls is the list of their names), and [state1] has exactly
    their names as keys. *)
Theorem GraphStep_FProp_loop_order
    (theta external_inputs step_inputs padding state0 : Value)
    (seqs : list GraphStep.Seq) (st : GraphStep.Locals) :
  GraphStep.FProp_loop theta external_inputs step_inputs padding state0 seqs
  = Ok st →
  GraphStep.vlog st = GraphStep.name <$> seqs ∧
  dom (GraphStep.state1 st)
  = (list_to_set (GraphStep.name <$> seqs) : gset string).
Proof.
  unfold GraphStep.FProp_loop. rewrite GraphStep_FProp_init_Ok.
  cbn [mbind result_bind]. intros Hloop.
  pose (I := λ (done : list GraphStep.Seq) (st : GraphStep.Locals),
    GraphStep.vlog st = GraphStep.name <$> done ∧
    dom (GraphStep.state1 st)
    = (list_to_set (GraphStep.name <$> done) : gset string)).
  apply (for_each_invariant I _ _ _ _) in Hloop; [exact Hloop| |].
  - split; [reflexivity|]. cbn [GraphStep.state1]. by rewrite dom_empty_L.
  - intros done seq rest st1 st2 _ [Hlog Hdom] Hbody.
    apply GraphStep_FProp_body_Ok in Hbody
      as (c & out & seq_state1 & o & gt & _ & _ & _ & _ & ->).
    split; cbn [GraphStep.vlog GraphStep.state1].
    + by rewrite Hlog, fmap_app.
    + rewrite dom_insert_L, Hdom, fmap_app, list_to_set_app_L.
      cbn [fmap list_fmap list_to_set].
      by rewrite (right_id_L ∅ (∪)), (comm_L (∪)).
Qed.

(** X10. A sub-step whose name is no key of [state0], or no key of [theta],
    makes [FProp] fail, whatever the other arguments are. *)
Theorem GraphStep_FProp_missing_key (self : GraphStep.t)
    (theta external_inputs step_inputs padding state0 : Value)
    (seq : GraphStep.Seq) :
  seq ∈ GraphStep._seq self →
  is_Err (py_utils.getitem state0 (GraphStep.name seq)) ∨
  is_Err (py_utils.getitem theta (GraphStep.name seq)) →
  is_Err (GraphStep.FProp self theta external_inputs step_inputs padding state0).
Proof.
  intros Hseq Hmissing.
  assert (Hbody : ∀ st,
    is_Err (GraphStep.FProp_body theta external_inputs padding state0 st seq)).
  { intros st. unfold GraphStep.FProp_body, GraphStep.FProp_call.
    destruct (match GraphStep.external_signature seq with
              | Some _ => _ | None => _ end) as [external|e];
      cbn [mbind result_bind]; [|by exists e].
    destruct (GraphStep.pack _ _) as [input_args|e];
      cbn [mbind result_bind]; [|by exists e].
    destruct Hmissing as [[e He]|[e He]].
    - destruct (py_utils.getitem theta _) as [theta_n|e'];
        cbn [mbind result_bind]; [|by exists e'].
      rewrite He. by exists e.
    - rewrite He. by exists e. }
  unfold GraphStep.FProp, GraphStep.FProp_loop.
  rewrite GraphStep_FProp_init_Ok. cbn [mbind result_bind].
  destruct (for_each_fails _ (GraphStep._seq self) seq
              {| GraphStep.graph_tensors :=
                   <["step_inputs" := step_inputs]>
                     (<["external_inputs" := external_inputs]> ∅);
                 GraphStep.state1 := ∅; GraphStep.vlog := [] |} Hseq Hbody)
    as [e He].
  rewrite He. by exists e.
Qed.

(** X11. Only the first declared output name of a sub-step is stored: after one
    iteration of the loop of [FProp] the registry is the registry before,
    with the output of the child under that one name, which was free. *)
Theorem GraphStep_FProp_body_stores_first_output
    (theta external_inputs padding state0 : Value)
    (st st' : GraphStep.Locals) (seq : GraphStep.Seq) :
  GraphStep.FProp_body theta external_inputs padding state0 st seq = Ok st' →
  ∃ o rest c out seq_state1,
    builder_layers.outputs (GraphStep.signature seq) = o :: rest ∧
    GraphStep.FProp_call theta external_inputs padding state0
      (GraphStep.graph_tensors st) seq = Ok c ∧
    GraphStep.invoke (GraphStep.step seq) c = Ok (out, seq_state1) ∧
    GraphStep.graph_tensors st !! o = None ∧
    GraphStep.graph_tensors st' = <[o := out]> (GraphStep.graph_tensors st) ∧
    ∀ n, n ≠ o →
      GraphStep.graph_tensors st' !! n = GraphStep.graph_tensors st !! n.
Proof.
  intros Hbody.
  apply GraphStep_FProp_body_Ok in Hbody
    as (c & out & seq_state1 & o & gt & Hc & Hcall & Ho & Hstore & ->).
  apply StoreTensor_Ok in Hstore as [Hfree ->].
  destruct (builder_layers.outputs (GraphStep.signature seq)) as [|o' rest]
    eqn:Houts; [done|].
  injection Ho as ->.
  exists o, rest, c, out, seq_state1.
  split; [reflexivity|]. split; [exact Hc|]. split; [exact Hcall|].
  split; [exact Hfree|]. split; [reflexivity|].
  intros n Hn. cbn [GraphStep.graph_tensors]. by rewrite lookup_insert_ne.
Qed.
End GraphStep_FProp_properties.

Section GraphStep_state.
Context `{TensorEngine}.

(** X12. [state0] and [state1] of [GraphStep.FProp] have the same structure, for
    a state of the graph (a map whose keys are the names of the sub-steps)
    and sub-steps that keep the structure of their own states; [state1] is
    a map with exactly the names of the sub-steps as keys. *)
Theorem GraphStep_FProp_state_shape (self : GraphStep.t)
    (theta external_inputs step_inputs padding : Value)
    (states0 : gmap string Value) (output state1 : Value) :
  dom states0 = list_to_set (GraphStep.name <$> GraphStep._seq self) →
  (∀ seq state0_n,
     seq ∈ GraphStep._seq self →
     states0 !! GraphStep.name seq = Some state0_n →
     preserves_state_shape (GraphStep.step seq) state0_n) →
  GraphStep.FProp self theta external_inputs step_inputs padding
    (NMap states0) = Ok (output, state1) →
  (∃ states1,
     state1 = NMap states1 ∧
     dom states1
     = (list_to_set (GraphStep.name <$> GraphStep._seq self) : gset string)) ∧
  shape state1 = shape (NMap states0 : Value).
Proof.
  intros Hdom Hchildren HF. unfold GraphStep.FProp in HF.
  apply bind_Ok in HF as (st & Hloop & HF).
  apply bind_Ok in HF as (out & _ & HF). injection HF as _ <-.
  unfold GraphStep.FProp_loop in Hloop.
  rewrite GraphStep_FProp_init_Ok in Hloop. cbn [mbind result_bind] in Hloop.
  pose (I := λ (done : list GraphStep.Seq) (st : GraphStep.Locals),
    dom (GraphStep.state1 st)
    = (list_to_set (GraphStep.name <$> done) : gset string) ∧
    ∀ k state1_k, GraphStep.state1 st !! k = Some state1_k →
      ∃ state0_k, states0 !! k = Some state0_k ∧
                  shape state1_k = shape state0_k).
  assert (HI : I (GraphStep._seq self) st).
  { apply (for_each_invariant I _ _ _ _) in Hloop; [exact Hloop| |].
    - split; cbn [GraphStep.state1]; [by rewrite dom_empty_L|].
      intros k state1_k. by rewrite lookup_empty.
    - intros done seq rest st1 st2 Hseqs [Hd Hs] Hbody.
      apply GraphStep_FProp_body_Ok in Hbody
        as (c & out' & seq_state1 & o & gt & Hc & Hcall & _ & _ & ->).
      apply FProp_call_Ok in Hc
        as (theta_n & external & input_args & state0_n & _ & _ & _ & Hstate
            & ->).
      unfold py_utils.getitem in Hstate. apply or_raise_Ok in Hstate.
      split; cbn [GraphStep.state1].
      + rewrite dom_insert_L, Hd, fmap_app, list_to_set_app_L.
        cbn [fmap list_fmap list_to_set].
        by rewrite (right_id_L ∅ (∪)), (comm_L (∪)).
      + intros k state1_k. rewrite lookup_insert.
        case_decide as Hk; [|by apply Hs].
        intros [= <-]. subst k. exists state0_n. split; [exact Hstate|].
        eapply (Hchildren seq state0_n); [|exact Hstate|exact Hcall].
        rewrite Hseqs. apply elem_of_app. right. by left. }
  destruct HI as [Hd Hs]. split.
  - exists (GraphStep.state1 st). by split.
  - rewrite !shape_NMap. f_equal. apply map_eq. intros k.
    rewrite !lookup_fmap.
    destruct (GraphStep.state1 st !! k) as [state1_k|] eqn:Hk.
    + destruct (Hs _ _ Hk) as (state0_k & -> & Hshape).
      cbn [fmap option_fmap option_map]. by f_equal.
    + apply not_elem_of_dom in Hk. rewrite Hd, <- Hdom in Hk.
      apply not_elem_of_dom in Hk. by rewrite Hk.
Qed.

(** X13. [GraphStep.ZeroState] returns a map with exactly the names of the
    sub-steps as keys: a state to which [FProp] can be applied. *)
Theorem GraphStep_ZeroState_keys (self : GraphStep.t)
    (theta prepared_inputs : Value) (batch_size : Z) (state0 : Value) :
  GraphStep.ZeroState self theta prepared_inputs batch_size = Ok state0 →
  ∃ states0,
    state0 = NMap states0 ∧
    dom states0
    = (list_to_set (GraphStep.name <$> GraphStep._seq self) : gset string).
Proof.
  unfold GraphStep.ZeroState. intros (states0 & Hloop & ->)%fmap_Ok.
  exists states0. split; [reflexivity|].
  pose (I := λ (done : list GraphStep.Seq) (m : gmap string Value),
    dom m = (list_to_set (GraphStep.name <$> done) : gset string)).
  apply (for_each_invariant I _ _ _ _) in Hloop; [exact Hloop| |].
  - unfold I. by rewrite dom_empty_L.
  - intros done seq rest m1 m2 _ Hd Hbody.
    apply bind_Ok in Hbody as (theta_n & _ & Hbody).
    apply bind_Ok in Hbody as (prepared_n & _ & Hbody).
    apply bind_Ok in Hbody as (s & _ & Hbody). injection Hbody as <-.
    unfold I in *. rewrite dom_insert_L, Hd, fmap_app, list_to_set_app_L.
    cbn [fmap list_fmap list_to_set].
    by rewrite (right_id_L ∅ (∪)), (comm_L (∪)).
Qed.
End GraphStep_state.

Section GraphStep_external.
Context `{TensorEngine}.

(** X14. [GraphStep.PrepareExternalInputs] returns a map with exactly the names
    of the sub-steps as keys; when these names are distinct, a sub-step
    without an external signature has the empty NestedMap under its name. *)
Theorem GraphStep_PrepareExternalInputs_keys (self : GraphStep.t)
    (theta external_inputs prepared_inputs : Value) :
  GraphStep.PrepareExternalInputs self theta external_inputs
  = Ok prepared_inputs →
  ∃ prepared,
    prepared_inputs = NMap prepared ∧
    dom prepared
    = (list_to_set (GraphStep.name <$> GraphStep._seq self) : gset string) ∧
    (NoDup (GraphStep.name <$> GraphStep._seq self) →
     ∀ seq, seq ∈ GraphStep._seq self →
       GraphStep.external_signature seq = None →
       prepared !! GraphStep.name seq = Some py_utils.NestedMap).
Proof.
  unfold GraphStep.PrepareExternalInputs. intros HP.
  apply bind_Ok in HP as (gt & _ & HP).
  apply fmap_Ok in HP as (prepared & Hloop & ->).
  exists prepared. split; [reflexivity|].
  pose (I := λ (done : list GraphStep.Seq) (m : gmap string Value),
    dom m = (list_to_set (GraphStep.name <$> done) : gset string) ∧
    (NoDup (GraphStep.name <$> done) →
     ∀ seq, seq ∈ done → GraphStep.external_signature seq = None →
       m !! GraphStep.name seq = Some py_utils.NestedMap)).
  apply (for_each_invariant I _ _ _ _) in Hloop; [exact Hloop| |].
  - split; [by rewrite dom_empty_L|]. intros _ seq Hseq.
    by apply elem_of_nil in Hseq.
  - intros done seq rest m1 m2 _ [Hd Hempty] Hbody.
    assert (Hm2 : ∃ p, m2 = <[GraphStep.name seq := p]> m1 ∧
      (GraphStep.external_signature seq = None → p = py_utils.NestedMap)).
    { unfold GraphStep.PrepareExternalInputs_body in Hbody.
      destruct (GraphStep.external_signature seq) as [sig|].
      - apply bind_Ok in Hbody as (a & _ & Hbody).
        apply bind_Ok in Hbody as (b & _ & Hbody).
        apply bind_Ok in Hbody as (p & _ & Hbody). injection Hbody as <-.
        exists p. split; [reflexivity|]. intros [=].
      - injection Hbody as <-. exists py_utils.NestedMap. by split. }
    destruct Hm2 as (p & -> & Hp). split.
    + rewrite dom_insert_L, Hd, fmap_app, list_to_set_app_L.
      cbn [fmap list_fmap list_to_set].
      by rewrite (right_id_L ∅ (∪)), (comm_L (∪)).
    + rewrite fmap_app. intros (Hnd & Hdisj & _)%NoDup_app seq' Hseq' Hnone.
      apply elem_of_app in Hseq' as [Hseq'|Hseq'].
      * rewrite lookup_insert_ne; [by apply Hempty|].
        intros Heq. apply (Hdisj (GraphStep.name seq')).
        -- apply list_elem_of_fmap. by exists seq'.
        -- rewrite <- Heq. by left.
      * apply list_elem_of_singleton in Hseq' as ->.
        rewrite lookup_insert_eq. f_equal. by apply Hp.
Qed.



(** A sub-step without an external signature is called by [FProp] with
    [None] as its external inputs, whatever [external_inputs] holds under
    its name: the iteration of the loop for it does not read it. *)
Theorem GraphStep_FProp_no_external_signature
    (theta external_inputs external_inputs' padding state0 : Value)
    (st : GraphStep.Locals) (seq : GraphStep.Seq) :
  GraphStep.external_signature seq = None →
  (∀ c, GraphStep.FProp_call theta external_inputs padding state0
          (GraphStep.graph_tensors st) seq = Ok c →
        GraphStep.call_external_inputs c = NNone) ∧
  GraphStep.FProp_body theta external_inputs padding state0 st seq
  = GraphStep.FProp_body theta external_inputs' padding state0 st seq.
Proof.
  intros Hnone. split.
  - intros c Hc.
    apply FProp_call_Ok in Hc
      as (theta_n & external & input_args & state0_n & _ & Hext & _ & _ & ->).
    rewrite Hnone in Hext. by injection Hext as <-.
  - unfold GraphStep.FProp_body, GraphStep.FProp_call. by rewrite Hnone.
Qed.
End GraphStep_external.

(** ** GraphStep.__init__ *)

Section GraphStep_init.
Context `{TensorEngine}.

(** What one iteration of the loop of [__init__] does, when it returns. *)
Lemma init_body_Ok (children children' : gmap string Step.t)
    (seqs seqs' : list GraphStep.Seq) (i : nat) (spec : SubStep.t) :
  GraphStep.init_body (children, seqs) (i, spec) = Ok (children', seqs') →
  ∃ seq,
    seqs' = seqs ++ [seq] ∧
    children' = <[GraphStep.name seq := GraphStep.step seq]> children ∧
    SubStep.signature spec ≠ "" ∧
    builder_layers.GraphSignature (SubStep.signature spec)
    = Ok (GraphStep.signature seq) ∧
    length (builder_layers.inputs (GraphStep.signature seq)) = 1%nat ∧
    builder_layers.outputs (GraphStep.signature seq) ≠ [] ∧
    match SubStep.external_signature spec with
    | Some e =>
        if bool_decide (e ≠ "") then
          ∃ es, GraphStep.external_signature seq = Some es ∧
                builder_layers.GraphSignature e = Ok es ∧
                length (builder_layers.inputs es) = 1%nat ∧
                builder_layers.outputs es = []
        else GraphStep.external_signature seq = None
    | None => GraphStep.external_signature seq = None
    end ∧
    (if bool_decide (hyperparams.name (SubStep.params spec) ≠ "")
     then Ok (hyperparams.name (SubStep.params spec))
     else o ← py_index (builder_layers.outputs (GraphStep.signature seq)) 0;
          Ok (format_s_02d o i)) = Ok (GraphStep.name seq) ∧
    hyperparams.Instantiate (SubStep.params spec) (GraphStep.name seq)
    = Ok (GraphStep.step seq).
Proof.
  unfold GraphStep.init_body. cbn [fst snd]. intros HB.
  apply bind_Ok in HB as (u1 & Hne%assert_Ok%bool_decide_eq_true & HB).
  apply bind_Ok in HB as (sig & Hsig & HB).
  apply bind_Ok in HB as (u2 & Hin%assert_Ok%bool_decide_eq_true & HB).
  apply bind_Ok in HB as (u3 & Hout%assert_Ok%bool_decide_eq_true & HB).
  apply bind_Ok in HB as (external_sig & Hext & HB).
  apply bind_Ok in HB as (name & Hname & HB).
  apply bind_Ok in HB as (children1 & Hcreate & HB).
  apply bind_Ok in HB as (child & Hchild%or_raise_Ok & HB).
  injection HB as <- <-.
  unfold GraphStep.CreateChild in Hcreate.
  apply bind_Ok in Hcreate as (child' & Hinst & Hcreate).
  injection Hcreate as <-.
  rewrite lookup_insert_eq in Hchild. injection Hchild as <-.
  exists (GraphStep.mkSeq name sig external_sig child').
  cbn [GraphStep.name GraphStep.signature GraphStep.external_signature
       GraphStep.step].
  split; [reflexivity|]. split; [reflexivity|]. split; [exact Hne|].
  split; [exact Hsig|]. split; [exact Hin|]. split; [exact Hout|].
  split; [|split; [exact Hname | exact Hinst]].
  destruct (SubStep.external_signature spec) as [e|].
  - destruct (bool_decide (e ≠ "")).
    + apply bind_Ok in Hext as (es & Hes & Hext).
      apply bind_Ok in Hext as (u4 & Hin'%assert_Ok%bool_decide_eq_true & Hext).
      apply bind_Ok in Hext as (u5 & Hout'%assert_Ok%bool_decide_eq_true & Hext).
      injection Hext as <-. by exists es.
    + by injection Hext as <-.
  - by injection Hext as <-.
Qed.

(** X16. What [__init__] has checked and built when it returns: the name of the
    graph is not empty, its output signature parses, and [_seq] has one
    entry for each SubStep, in order, with the parsed signature (exactly one
    input group, at least one output name), the parsed external signature
    if one is given (exactly one input group, no output name), the child
    constructed from the params, and as its name the name in the params or,
    when that is empty, the first output name followed by the index on two
    digits. *)
Theorem GraphStep_init_Ok (p : GraphStep.Params.t) (self : GraphStep.t) :
  GraphStep.__init__ p = Ok self →
  GraphStep.Params.name p ≠ "" ∧
  builder_layers.GraphSignature (GraphStep.Params.output_signature p)
  = Ok (GraphStep.output_signature self) ∧
  length (GraphStep._seq self) = length (GraphStep.Params.sub p) ∧
  ∀ i spec, GraphStep.Params.sub p !! i = Some spec →
    ∃ seq,
      GraphStep._seq self !! i = Some seq ∧
      SubStep.signature spec ≠ "" ∧
      builder_layers.GraphSignature (SubStep.signature spec)
      = Ok (GraphStep.signature seq) ∧
      length (builder_layers.inputs (GraphStep.signature seq)) = 1%nat ∧
      builder_layers.outputs (GraphStep.signature seq) ≠ [] ∧
      match SubStep.external_signature spec with
      | Some e =>
          if bool_decide (e ≠ "") then
            ∃ es, GraphStep.external_signature seq = Some es ∧
                  builder_layers.GraphSignature e = Ok es ∧
                  length (builder_layers.inputs es) = 1%nat ∧
                  builder_layers.outputs es = []
          else GraphStep.external_signature seq = None
      | None => GraphStep.external_signature seq = None
      end ∧
      (if bool_decide (hyperparams.name (SubStep.params spec) ≠ "")
       then Ok (hyperparams.name (SubStep.params spec))
       else o ← py_index (builder_layers.outputs (GraphStep.signature seq)) 0;
            Ok (format_s_02d o i)) = Ok (GraphStep.name seq) ∧
      hyperparams.Instantiate (SubStep.params spec) (GraphStep.name seq)
      = Ok (GraphStep.step seq).
Proof.
  unfold GraphStep.__init__. intros HI.
  apply bind_Ok in HI as (u & Hname%assert_Ok%bool_decide_eq_true & HI).
  apply bind_Ok in HI as ([children seqs] & Hloop & HI).
  apply bind_Ok in HI as (osig & Hosig & HI). injection HI as <-.
  cbn [GraphStep.output_signature GraphStep._seq].
  split; [exact Hname|]. split; [exact Hosig|].
  pose (R := λ (entry : nat * SubStep.t) (seq : GraphStep.Seq),
    ∃ seqs0 seqs1 children0 children1,
      GraphStep.init_body (children0, seqs0) entry = Ok (children1, seqs1) ∧
      seqs1 = seqs0 ++ [seq]).
  pose (I := λ (done : list (nat * SubStep.t))
               (st : gmap string Step.t * list GraphStep.Seq),
    Forall2 R done st.2).
  apply (for_each_invariant I _ _ _ _) in Hloop.
  - unfold I in Hloop. cbn [snd] in Hloop. split.
    + apply Forall2_length in Hloop. by rewrite length_imap in Hloop.
    + intros i spec Hspec.
      assert (Hentry : imap pair (GraphStep.Params.sub p) !! i = Some (i, spec))
        by (by rewrite list_lookup_imap, Hspec).
      destruct (Forall2_lookup_l _ _ _ _ _ Hloop Hentry)
        as (seq & Hseq & seqs0 & seqs1 & children0 & children1 & Hbody & ->).
      apply init_body_Ok in Hbody
        as (seq' & Heq & _ & H1 & H2 & H3 & H4 & H5 & H6 & H7).
      apply app_inj_tail in Heq as [_ <-].
      exists seq.
      exact (conj Hseq (conj H1 (conj H2 (conj H3 (conj H4
               (conj H5 (conj H6 H7))))))).
  - unfold I. cbn [snd]. constructor.
  - intros done entry rest [children0 seqs0] [children1 seqs1] _ HI Hbody.
    unfold I in *. cbn [snd] in *.
    destruct entry as [i spec].
    pose proof Hbody as Hbody'.
    apply init_body_Ok in Hbody' as (seq & -> & _).
    apply Forall2_app; [exact HI|]. constructor; [|constructor].
    by exists seqs0, (seqs0 ++ [seq]), children0, children1.
Qed.
End GraphStep_init.

Section GraphStep_init_checks.
Context `{TensorEngine}.

(** X17. The checks of [__init__] on one SubStep: construction fails when the
    signature of any SubStep is empty or does not parse, has not exactly
    one input group or has no output name, or when an external signature
    that is given does not parse, has not exactly one input group or has an
    output name. *)
Theorem GraphStep_init_signature_checks (p : GraphStep.Params.t)
    (spec : SubStep.t) :
  spec ∈ GraphStep.Params.sub p →
  SubStep.signature spec = "" ∨
  is_Err (builder_layers.GraphSignature (SubStep.signature spec)) ∨
  (∃ sig,
     builder_layers.GraphSignature (SubStep.signature spec) = Ok sig ∧
     (length (builder_layers.inputs sig) ≠ 1%nat ∨
      builder_layers.outputs sig = [])) ∨
  (∃ e, SubStep.external_signature spec = Some e ∧ e ≠ "" ∧
        (is_Err (builder_layers.GraphSignature e) ∨
         ∃ es, builder_layers.GraphSignature e = Ok es ∧
               (length (builder_layers.inputs es) ≠ 1%nat ∨
                builder_layers.outputs es ≠ []))) →
  is_Err (GraphStep.__init__ p).
Proof.
  intros Hspec Hbad.
  apply list_elem_of_lookup in Hspec as [i Hi].
  assert (Hentry : (i, spec) ∈ imap pair (GraphStep.Params.sub p)).
  { apply list_elem_of_lookup. exists i. by rewrite list_lookup_imap, Hi. }
  assert (Hbody : ∀ st, is_Err (GraphStep.init_body st (i, spec))).
  { intros [children seqs].
    destruct (GraphStep.init_body (children, seqs) (i, spec))
      as [[children' seqs']|e] eqn:HB; [|by exists e].
    exfalso. apply init_body_Ok in HB
      as (seq & _ & _ & Hne & Hsig & Hin & Hout & Hext & _).
    destruct Hbad
      as [Hempty|[[e He]|[(sig & Hsig' & Hbad)|(e & He & Hne' & Hbad)]]].
    - done.
    - rewrite Hsig in He. discriminate He.
    - rewrite Hsig in Hsig'. injection Hsig' as <-. by destruct Hbad.
    - rewrite He in Hext. rewrite bool_decide_true in Hext by done.
      destruct Hext as (es & _ & Hes & Hin' & Hout').
      destruct Hbad as [[e' He']|(es' & Hes' & Hbad)].
      + rewrite Hes in He'. discriminate He'.
      + rewrite Hes in Hes'. injection Hes' as <-. by destruct Hbad. }
  unfold GraphStep.__init__.
  destruct (assert (bool_decide (GraphStep.Params.name p ≠ ""))) as [u|e];
    cbn [mbind result_bind]; [|by exists e].
  destruct (for_each_fails GraphStep.init_body
              (imap pair (GraphStep.Params.sub p)) (i, spec) (∅, [])
              Hentry Hbody) as [e He].
  rewrite He. by exists e.
Qed.

(** X18. [__init__] checks each SubStep by itself: when the graph has a name,
    its output signature parses, and every SubStep passes its own checks
    and its child can be constructed, construction succeeds; output names
    are not compared between SubSteps. *)
Theorem GraphStep_init_succeeds (p : GraphStep.Params.t) :
  GraphStep.Params.name p ≠ "" →
  is_Ok (builder_layers.GraphSignature (GraphStep.Params.output_signature p)) →
  (∀ spec, spec ∈ GraphStep.Params.sub p →
     SubStep.signature spec ≠ "" ∧
     (∃ sig,
        builder_layers.GraphSignature (SubStep.signature spec) = Ok sig ∧
        length (builder_layers.inputs sig) = 1%nat ∧
        builder_layers.outputs sig ≠ []) ∧
     (∀ e, SubStep.external_signature spec = Some e → e ≠ "" →
        ∃ es, builder_layers.GraphSignature e = Ok es ∧
              length (builder_layers.inputs es) = 1%nat ∧
              builder_layers.outputs es = []) ∧
     ∀ name, is_Ok (hyperparams.Instantiate (SubStep.params spec) name)) →
  is_Ok (GraphStep.__init__ p).
Proof.
  intros Hname [osig Hosig] Hspecs. unfold GraphStep.__init__.
  rewrite (bool_decide_true (GraphStep.Params.name p ≠ "")) by done.
  cbn [assert mbind result_bind].
  destruct (for_each_returns GraphStep.init_body
              (imap pair (GraphStep.Params.sub p)) (∅, [])) as [[children seqs] ->].
  - intros [i spec] [children seqs] Hentry.
    apply list_elem_of_lookup in Hentry as [j Hj].
    rewrite list_lookup_imap in Hj.
    destruct (GraphStep.Params.sub p !! j) as [spec'|] eqn:Hspec; [|done].
    injection Hj as <- <-.
    destruct (Hspecs spec') as (Hne & (sig & Hsig & Hin & Hout) & Hext & Hinst).
    { apply list_elem_of_lookup. by exists j. }
    unfold GraphStep.init_body. cbn [fst snd].
    rewrite (bool_decide_true (SubStep.signature spec' ≠ "")) by done.
    cbn [assert mbind result_bind].
    rewrite Hsig. cbn [mbind result_bind].
    rewrite (bool_decide_true (length (builder_layers.inputs sig) = 1%nat))
      by done.
    cbn [assert mbind result_bind].
    rewrite (bool_decide_true (builder_layers.outputs sig ≠ [])) by done.
    cbn [assert mbind result_bind].
    assert (Hext' : is_Ok
      match SubStep.external_signature spec' with
      | Some e =>
          if bool_decide (e ≠ "") then
            external_sig ← builder_layers.GraphSignature e;
            _ ← assert (bool_decide
                          (length (builder_layers.inputs external_sig) = 1%nat));
            _ ← assert (bool_decide (builder_layers.outputs external_sig = []));
            Ok (Some external_sig)
          else Ok None
      | None => Ok None
      end).
    { destruct (SubStep.external_signature spec') as [e|]; [|by eexists].
      case_bool_decide as He; [|by eexists].
      destruct (Hext e eq_refl He) as (es & -> & Hin' & Hout').
      cbn [mbind result_bind]. rewrite !bool_decide_true by done.
      by eexists. }
    destruct Hext' as [external_sig ->]. cbn [mbind result_bind].
    assert (Hnm : is_Ok
      (if bool_decide (hyperparams.name (SubStep.params spec') ≠ "")
       then Ok (hyperparams.name (SubStep.params spec'))
       else o ← py_index (builder_layers.outputs sig) 0;
            Ok (format_s_02d o j))).
    { case_bool_decide; [by eexists|].
      destruct (builder_layers.outputs sig) as [|o outs]; [done|].
      by eexists. }
    destruct Hnm as [name ->]. cbn [mbind result_bind].
    unfold GraphStep.CreateChild.
    destruct (Hinst name) as [child ->]. cbn [mbind result_bind].
    rewrite lookup_insert_eq. cbn [or_raise mbind result_bind]. by eexists.
  - cbn [mbind result_bind]. rewrite Hosig. by eexists.
Qed.
End GraphStep_init_checks.

(** ** The examples, run *)

Example graph_ab_init :
  GraphStep.__init__ (GraphStep.params graph_ab) = Ok graph_ab.
Proof. vm_compute. reflexivity. Qed.

Example graph_ab_PrepareExternalInputs :
  GraphStep.PrepareExternalInputs graph_ab graph_theta graph_external
  = Ok graph_prepared.
Proof. vm_compute. reflexivity. Qed.

Example graph_ab_ZeroState :
  GraphStep.ZeroState graph_ab graph_theta graph_prepared 4 = Ok graph_state0.
Proof. vm_compute. reflexivity. Qed.

Example graph_ab_FProp :
  GraphStep.FProp graph_ab graph_theta graph_prepared one_tensor NNone
    graph_state0
  = Ok (NMap {[ "inputs" := NList [leaf [[9]]] ]}, graph_state0).
Proof. vm_compute. reflexivity. Qed.

(** ** The theorems above, at the examples *)

Lemma StackStep_PrepareExternalInputs_spec_witness :
  StackStep.PrepareExternalInputs stack_plain stack_theta graph_external
  = Ok stack_external ∧
  ∃ l, stack_external = NMap {[ "sub" := NList l ]} ∧
       length l = length (StackStep.sub stack_plain) ∧
       ∀ i p, l !! i = Some p →
         ∃ child theta_i,
           StackStep.sub stack_plain !! i = Some child ∧
           StackStep.field_at stack_theta "sub" i = Ok theta_i ∧
           Step.PrepareExternalInputs child theta_i graph_external = Ok p.
Proof.
  assert (H1 : StackStep.PrepareExternalInputs stack_plain stack_theta
                 graph_external = Ok stack_external)
    by (vm_compute; reflexivity).
  split; [exact H1|].
  exact (proj1 (@StackStep_PrepareExternalInputs_spec matrix_engine
                  stack_plain stack_theta graph_external stack_external) H1).
Defined.

Lemma StackStep_ZeroState_spec_witness :
  StackStep.ZeroState stack_plain stack_theta stack_external 4
  = Ok stack_state0 ∧
  ∃ l, stack_state0 = NMap {[ "sub" := NList l ]} ∧
       length l = length (StackStep.sub stack_plain) ∧
       ∀ i s, l !! i = Some s →
         ∃ child theta_i,
           StackStep.sub stack_plain !! i = Some child ∧
           StackStep.field_at stack_theta "sub" i = Ok theta_i ∧
           Step.ZeroState child theta_i stack_external 4 = Ok s.
Proof.
  assert (H1 : StackStep.ZeroState stack_plain stack_theta stack_external 4
               = Ok stack_state0)
    by (vm_compute; reflexivity).
  split; [exact H1|].
  exact (proj1 (@StackStep_ZeroState_spec matrix_engine stack_plain
                  stack_theta stack_external 4 stack_state0) H1).
Defined.

Lemma StackStep_short_theta_fails_witness :
  (length [@NNone (@Tensor matrix_engine)]
   < length (StackStep.sub stack_plain))%nat ∧
  is_Err (StackStep.PrepareExternalInputs stack_plain
            (NMap {[ "sub" := NList [NNone] ]}) graph_external) ∧
  is_Err (StackStep.ZeroState stack_plain
            (NMap {[ "sub" := NList [NNone] ]}) graph_external 4).
Proof.
  assert (H1 : (length [@NNone (@Tensor matrix_engine)]
                < length (StackStep.sub stack_plain))%nat)
    by (simpl; lia).
  split; [exact H1|].
  exact (@StackStep_short_theta_fails matrix_engine stack_plain [NNone]
           graph_external 4 H1).
Defined.

Lemma StackStep_FProp_no_children_witness :
  StackStep.sub stack_empty = [] ∧
  is_Err (StackStep.FProp stack_empty stack_theta stack_external stack_inputs
            NNone stack_state0) ∧
  (is_Ok (StackStep.FProp_init stack_inputs) →
   StackStep.FProp stack_empty stack_theta stack_external stack_inputs NNone
     stack_state0 = Err UnboundLocalError).
Proof.
  assert (H1 : StackStep.sub stack_empty = []) by reflexivity.
  split; [exact H1|].
  exact (@StackStep_FProp_no_children matrix_engine stack_empty stack_theta
           stack_external stack_inputs NNone stack_state0 H1).
Defined.

Lemma StackStep_nonpositive_stride_fails_witness :
  0 ≤ StackStep.residual_start stack_stride0
    < Z.of_nat (length (StackStep.sub stack_stride0)) ∧
  StackStep.residual_stride stack_stride0 ≤ 0 ∧
  is_Err (StackStep.FProp stack_stride0 stack_theta stack_external
            stack_inputs NNone stack_state0).
Proof.
  assert (H1 : 0 ≤ StackStep.residual_start stack_stride0
               < Z.of_nat (length (StackStep.sub stack_stride0)))
    by (simpl; lia).
  assert (H2 : StackStep.residual_stride stack_stride0 ≤ 0) by (simpl; lia).
  split; [exact H1|]. split; [exact H2|].
  exact (@StackStep_nonpositive_stride_fails matrix_engine stack_stride0
           stack_theta stack_external stack_inputs NNone stack_state0 H1 H2).
Defined.

Lemma StackStep_negative_start_off_witness :
  StackStep.residual_start stack_negative < 0 ∧
  (∃ inputs ts c,
     py_utils.getattr stack_inputs "inputs" ≫= py_utils.to_list = Ok inputs ∧
     map_result (@as_tensor matrix_engine) inputs = Ok ts ∧
     @tf_concat matrix_engine ts 1 = Ok c) ∧
  StackStep.FProp stack_negative stack_theta stack_external stack_inputs NNone
    stack_state0
  = StackStep.FProp_without_residual stack_negative stack_theta stack_external
      stack_inputs NNone stack_state0.
Proof.
  assert (H1 : StackStep.residual_start stack_negative < 0) by (simpl; lia).
  assert (H2 : ∃ inputs ts c,
     py_utils.getattr stack_inputs "inputs" ≫= py_utils.to_list = Ok inputs ∧
     map_result (@as_tensor matrix_engine) inputs = Ok ts ∧
     @tf_concat matrix_engine ts 1 = Ok c).
  { exists [leaf [[1; 10]]], [[[1; 10]] : @Tensor matrix_engine], [[1; 10]].
    split; [reflexivity|]. split; reflexivity. }
  split; [exact H1|]. split; [exact H2|].
  exact (@StackStep_negative_start_off matrix_engine stack_negative stack_theta
           stack_external stack_inputs NNone stack_state0 H1 H2).
Defined.

Lemma StackStep_FProp_returns_witness :
  StackStep.FProp stack_residual stack_theta stack_external stack_inputs NNone
    stack_state0
  = Ok (NMap {[ "output" := leaf [[12; 120]] ]}, stack_state0) ∧
  ∃ out states1,
    (NMap {[ "output" := leaf [[12; 120]] ]} : @Nested (@Tensor matrix_engine))
    = NMap {[ "output" := out ]} ∧
    stack_state0 = NMap {[ "sub" := NList states1 ]} ∧
    length states1 = length (StackStep.sub stack_residual) ∧
    ∀ i state1_i, states1 !! i = Some state1_i →
      ∃ child theta_i external_i sub_inputs state0_i sub_output,
        StackStep.sub stack_residual !! i = Some child ∧
        StackStep.field_at stack_theta "sub" i = Ok theta_i ∧
        StackStep.field_at stack_external "sub" i = Ok external_i ∧
        StackStep.field_at stack_state0 "sub" i = Ok state0_i ∧
        Step.FProp child theta_i external_i sub_inputs NNone state0_i
        = Ok (sub_output, state1_i).
Proof.
  assert (H1 : StackStep.FProp stack_residual stack_theta stack_external
                 stack_inputs NNone stack_state0
               = Ok (NMap {[ "output" := leaf [[12; 120]] ]}, stack_state0))
    by (vm_compute; reflexivity).
  split; [exact H1|].
  exact (@StackStep_FProp_returns matrix_engine stack_residual stack_theta
           stack_external stack_inputs NNone stack_state0 _ _ H1).
Defined.

(** A StatelessLayerStep keeps the structure of the empty state. *)
Lemma StatelessLayerStep_preserves `{TensorEngine} (self : StatelessLayerStep.t) :
  preserves_state_shape (StatelessLayerStep.step self) py_utils.NestedMap.
Proof.
  intros theta external_inputs step_inputs padding output state1 HF.
  cbn [StatelessLayerStep.step Step.FProp] in HF.
  unfold StatelessLayerStep.FProp in HF.
  apply bind_Ok in HF as (a & _ & HF). apply bind_Ok in HF as (b & _ & HF).
  apply bind_Ok in HF as (c & _ & HF). by injection HF as _ <-.
Qed.

Lemma StackStep_FProp_state_shape_witness :
  let states0 : list (@Nested (@Tensor matrix_engine)) :=
    [py_utils.NestedMap; py_utils.NestedMap] in
  length states0 = length (StackStep.sub stack_residual) ∧
  (∀ i child state0_i,
     StackStep.sub stack_residual !! i = Some child →
     states0 !! i = Some state0_i →
     preserves_state_shape child state0_i) ∧
  StackStep.FProp stack_residual stack_theta stack_external stack_inputs NNone
    (NMap {[ "sub" := NList states0 ]})
  = Ok (NMap {[ "output" := leaf [[12; 120]] ]}, stack_state0) ∧
  shape stack_state0 = shape (NMap {[ "sub" := NList states0 ]}).
Proof.
  intros states0.
  assert (H1 : length states0 = length (StackStep.sub stack_residual))
    by reflexivity.
  assert (H2 : ∀ i child state0_i,
     StackStep.sub stack_residual !! i = Some child →
     states0 !! i = Some state0_i →
     preserves_state_shape child state0_i).
  { intros i child state0_i Hchild Hstate.
    destruct i as [|[|i]]; [| |discriminate Hstate];
      injection Hchild as <-; injection Hstate as <-;
      apply (@StatelessLayerStep_preserves matrix_engine). }
  assert (H3 : StackStep.FProp stack_residual stack_theta stack_external
                 stack_inputs NNone (NMap {[ "sub" := NList states0 ]})
               = Ok (NMap {[ "output" := leaf [[12; 120]] ]}, stack_state0))
    by (vm_compute; reflexivity).
  split; [exact H1|]. split; [exact H2|]. split; [exact H3|].
  exact (@StackStep_FProp_state_shape matrix_engine stack_residual stack_theta
           stack_external stack_inputs NNone states0 _ _ H1 H2 H3).
Defined.

Lemma GraphStep_FProp_loop_order_witness :
  GraphStep.FProp_loop graph_theta graph_prepared one_tensor NNone
    graph_state0 [seq_a; seq_b] = Ok graph_locals_ab ∧
  GraphStep.vlog graph_locals_ab = GraphStep.name <$> [seq_a; seq_b] ∧
  dom (GraphStep.state1 graph_locals_ab)
  = (list_to_set (GraphStep.name <$> [seq_a; seq_b]) : gset string).
Proof.
  split; [vm_compute; reflexivity|].
  apply (@GraphStep_FProp_loop_order matrix_engine graph_theta graph_prepared
           one_tensor NNone graph_state0 [seq_a; seq_b] graph_locals_ab).
  vm_compute. reflexivity.
Defined.

Lemma GraphStep_FProp_missing_key_witness :
  let state0 : @Nested (@Tensor matrix_engine) :=
    NMap {[ "a" := py_utils.NestedMap ]} in
  seq_b ∈ GraphStep._seq graph_ab ∧
  (is_Err (py_utils.getitem state0 (GraphStep.name seq_b)) ∨
   is_Err (py_utils.getitem graph_theta (GraphStep.name seq_b))) ∧
  is_Err (GraphStep.FProp graph_ab graph_theta graph_prepared one_tensor NNone
            state0).
Proof.
  intros state0.
  assert (H1 : seq_b ∈ GraphStep._seq graph_ab)
    by (right; left).
  assert (H2 : is_Err (py_utils.getitem state0 (GraphStep.name seq_b)) ∨
               is_Err (py_utils.getitem graph_theta (GraphStep.name seq_b)))
    by (left; exists KeyError; vm_compute; reflexivity).
  split; [exact H1|]. split; [exact H2|].
  exact (@GraphStep_FProp_missing_key matrix_engine graph_ab graph_theta
           graph_prepared one_tensor NNone state0 seq_b H1 H2).
Defined.

Lemma GraphStep_FProp_body_stores_first_output_witness :
  GraphStep.FProp_body graph_theta graph_prepared NNone graph_state0
    graph_locals0 seq_a = Ok graph_locals_a ∧
  ∃ o rest c out seq_state1,
    builder_layers.outputs (GraphStep.signature seq_a) = o :: rest ∧
    GraphStep.FProp_call graph_theta graph_prepared NNone graph_state0
      (GraphStep.graph_tensors graph_locals0) seq_a = Ok c ∧
    GraphStep.invoke (GraphStep.step seq_a) c = Ok (out, seq_state1) ∧
    GraphStep.graph_tensors graph_locals0 !! o = None ∧
    GraphStep.graph_tensors graph_locals_a
    = <[o := out]> (GraphStep.graph_tensors graph_locals0) ∧
    ∀ n, n ≠ o →
      GraphStep.graph_tensors graph_locals_a !! n
      = GraphStep.graph_tensors graph_locals0 !! n.
Proof.
  split; [vm_compute; reflexivity|].
  apply (@GraphStep_FProp_body_stores_first_output matrix_engine graph_theta
           graph_prepared NNone graph_state0 graph_locals0 graph_locals_a
           seq_a).
  vm_compute. reflexivity.
Defined.

(** The two concrete steps of the examples return the state they are
    given. *)
Lemma example_steps_preserve (seq : @GraphStep.Seq matrix_engine)
    (state0_n : @Nested (@Tensor matrix_engine)) :
  seq ∈ [seq_a; seq_b] →
  @preserves_state_shape matrix_engine (GraphStep.step seq) state0_n.
Proof.
  intros Hseq theta external_inputs step_inputs padding output state1 HF.
  apply elem_of_cons in Hseq as [->|Hseq];
    [|apply elem_of_cons in Hseq as [->|Hseq];
      [|by apply elem_of_nil in Hseq]];
    cbn [seq_a seq_b GraphStep.step echo_step external_step Step.FProp] in HF;
    by injection HF as _ <-.
Qed.

Lemma GraphStep_FProp_state_shape_witness :
  let states0 : gmap string (@Nested (@Tensor matrix_engine)) :=
    {[ "a" := py_utils.NestedMap; "b" := py_utils.NestedMap ]} in
  dom states0 = list_to_set (GraphStep.name <$> GraphStep._seq graph_ab) ∧
  (∀ seq state0_n,
     seq ∈ GraphStep._seq graph_ab →
     states0 !! GraphStep.name seq = Some state0_n →
     @preserves_state_shape matrix_engine (GraphStep.step seq) state0_n) ∧
  GraphStep.FProp graph_ab graph_theta graph_prepared one_tensor NNone
    (NMap states0)
  = Ok (NMap {[ "inputs" := NList [leaf [[9]]] ]}, graph_state0) ∧
  (∃ states1,
     graph_state0 = NMap states1 ∧
     dom states1
     = (list_to_set (GraphStep.name <$> GraphStep._seq graph_ab)
        : gset string)) ∧
  shape graph_state0 = shape (NMap states0).
Proof.
  intros states0.
  assert (H1 : dom states0
               = list_to_set (GraphStep.name <$> GraphStep._seq graph_ab))
    by (vm_compute; reflexivity).
  assert (H2 : ∀ seq state0_n,
     seq ∈ GraphStep._seq graph_ab →
     states0 !! GraphStep.name seq = Some state0_n →
     @preserves_state_shape matrix_engine (GraphStep.step seq) state0_n)
    by (intros seq state0_n Hseq _; by apply example_steps_preserve).
  assert (H3 : GraphStep.FProp graph_ab graph_theta graph_prepared one_tensor
                 NNone (NMap states0)
               = Ok (NMap {[ "inputs" := NList [leaf [[9]]] ]}, graph_state0))
    by (vm_compute; reflexivity).
  split; [exact H1|]. split; [exact H2|]. split; [exact H3|].
  exact (@GraphStep_FProp_state_shape matrix_engine graph_ab graph_theta
           graph_prepared one_tensor NNone states0 _ _ H1 H2 H3).
Defined.

Lemma GraphStep_ZeroState_keys_witness :
  GraphStep.ZeroState graph_ab graph_theta graph_prepared 4 = Ok graph_state0 ∧
  ∃ states0,
    graph_state0 = NMap states0 ∧
    dom states0
    = (list_to_set (GraphStep.name <$> GraphStep._seq graph_ab) : gset string).
Proof.
  assert (H1 : GraphStep.ZeroState graph_ab graph_theta graph_prepared 4
               = Ok graph_state0)
    by (vm_compute; reflexivity).
  split; [exact H1|].
  exact (@GraphStep_ZeroState_keys matrix_engine graph_ab graph_theta
           graph_prepared 4 graph_state0 H1).
Defined.

Lemma GraphStep_PrepareExternalInputs_keys_witness :
  GraphStep.PrepareExternalInputs graph_ab graph_theta graph_external
  = Ok graph_prepared ∧
  ∃ prepared,
    graph_prepared = NMap prepared ∧
    dom prepared
    = (list_to_set (GraphStep.name <$> GraphStep._seq graph_ab) : gset string) ∧
    (NoDup (GraphStep.name <$> GraphStep._seq graph_ab) →
     ∀ seq, seq ∈ GraphStep._seq graph_ab →
       GraphStep.external_signature seq = None →
       prepared !! GraphStep.name seq = Some py_utils.NestedMap).
Proof.
  assert (H1 : GraphStep.PrepareExternalInputs graph_ab graph_theta
                 graph_external = Ok graph_prepared)
    by (vm_compute; reflexivity).
  split; [exact H1|].
  exact (@GraphStep_PrepareExternalInputs_keys matrix_engine graph_ab
           graph_theta graph_external graph_prepared H1).
Defined.


Lemma GraphStep_FProp_no_external_signature_witness :
  GraphStep.external_signature seq_a = None ∧
  (∀ c, GraphStep.FProp_call graph_theta graph_prepared NNone graph_state0
          (GraphStep.graph_tensors graph_locals0) seq_a = Ok c →
        GraphStep.call_external_inputs c = NNone) ∧
  GraphStep.FProp_body graph_theta graph_prepared NNone graph_state0
    graph_locals0 seq_a
  = GraphStep.FProp_body graph_theta graph_external NNone graph_state0
      graph_locals0 seq_a.
Proof.
  assert (H1 : GraphStep.external_signature seq_a = None) by reflexivity.
  split; [exact H1|].
  exact (@GraphStep_FProp_no_external_signature matrix_engine graph_theta
           graph_prepared graph_external NNone graph_state0 graph_locals0
           seq_a H1).
Defined.

Lemma GraphStep_init_Ok_witness :
  GraphStep.__init__ (GraphStep.params graph_ab) = Ok graph_ab ∧
  GraphStep._seq graph_ab !! 1%nat = Some seq_b ∧
  GraphStep.Params.name (GraphStep.params graph_ab) ≠ "" ∧
  builder_layers.GraphSignature
    (GraphStep.Params.output_signature (GraphStep.params graph_ab))
  = Ok (GraphStep.output_signature graph_ab) ∧
  length (GraphStep._seq graph_ab)
  = length (GraphStep.Params.sub (GraphStep.params graph_ab)).
Proof.
  assert (H1 : GraphStep.__init__ (GraphStep.params graph_ab) = Ok graph_ab)
    by (vm_compute; reflexivity).
  split; [exact H1|]. split; [reflexivity|].
  pose proof (@GraphStep_init_Ok matrix_engine (GraphStep.params graph_ab)
                graph_ab H1) as (Hname & Hsig & Hlen & _).
  exact (conj Hname (conj Hsig Hlen)).
Defined.

Lemma GraphStep_init_signature_checks_witness :
  let spec : @SubStep.t matrix_engine :=
    SubStep.mk "(step_inputs.a,step_inputs.b)->c" None
      (params_of "" echo_step) in
  spec ∈ GraphStep.Params.sub graph_two_groups ∧
  (∃ sig,
     builder_layers.GraphSignature (SubStep.signature spec) = Ok sig ∧
     (length (builder_layers.inputs sig) ≠ 1%nat ∨
      builder_layers.outputs sig = [])) ∧
  is_Err (GraphStep.__init__ graph_two_groups).
Proof.
  intros spec.
  assert (H1 : spec ∈ GraphStep.Params.sub graph_two_groups) by left.
  assert (H2 : ∃ sig,
     builder_layers.GraphSignature (SubStep.signature spec) = Ok sig ∧
     (length (builder_layers.inputs sig) ≠ 1%nat ∨
      builder_layers.outputs sig = [])).
  { eexists. split; [vm_compute; reflexivity|]. left. simpl. lia. }
  split; [exact H1|]. split; [exact H2|].
  exact (@GraphStep_init_signature_checks matrix_engine graph_two_groups spec
           H1 (or_intror (or_intror (or_introl H2)))).
Defined.

Lemma GraphStep_init_succeeds_witness :
  GraphStep.Params.name graph_same_output ≠ "" ∧
  is_Ok (builder_layers.GraphSignature
           (GraphStep.Params.output_signature graph_same_output)) ∧
  Forall (λ spec : @SubStep.t matrix_engine,
            builder_layers.outputs
            <$> builder_layers.GraphSignature (SubStep.signature spec)
            = Ok ["layer_0"])
         (GraphStep.Params.sub graph_same_output) ∧
  is_Ok (GraphStep.__init__ graph_same_output).
Proof.
  assert (H1 : GraphStep.Params.name graph_same_output ≠ "")
    by (intros H; discriminate H).
  assert (H3 : ∀ spec, spec ∈ GraphStep.Params.sub graph_same_output →
     SubStep.signature spec ≠ "" ∧
     (∃ sig,
        builder_layers.GraphSignature (SubStep.signature spec) = Ok sig ∧
        length (builder_layers.inputs sig) = 1%nat ∧
        builder_layers.outputs sig ≠ []) ∧
     (∀ e, SubStep.external_signature spec = Some e → e ≠ "" →
        ∃ es, builder_layers.GraphSignature e = Ok es ∧
              length (builder_layers.inputs es) = 1%nat ∧
              builder_layers.outputs es = []) ∧
     ∀ name, is_Ok (hyperparams.Instantiate (SubStep.params spec) name)).
  { intros spec Hspec.
    assert (Heq : spec = SubStep.mk "(inputs=[step_inputs.inputs])->layer_0"
                           None (params_of "" echo_step)).
    { apply elem_of_cons in Hspec as [->|Hspec]; [reflexivity|].
      apply elem_of_cons in Hspec as [->|Hspec]; [reflexivity|].
      apply elem_of_nil in Hspec. destruct Hspec. }
    rewrite Heq. clear Heq Hspec spec.
    split; [intros H; discriminate H|]. split; [|split].
    - eexists. split; [vm_compute; reflexivity|].
      split; [reflexivity|]. intros H; discriminate H.
    - intros e H. discriminate H.
    - intros name. exists echo_step. reflexivity. }
  split; [exact H1|].
  split; [eexists; vm_compute; reflexivity|].
  split.
  - apply Forall_cons. split; [vm_compute; reflexivity|].
    apply Forall_cons. split; [vm_compute; reflexivity|]. apply Forall_nil_2.
  - apply (@GraphStep_init_succeeds matrix_engine graph_same_output H1);
      [|exact H3].
    eexists. vm_compute. reflexivity.
Defined.
